(** * Gzip response-compression middleware (package compress)

    A shallow embedding of [compress.go]: the middleware built by [New], the
    deferred clean-up it registers, and the four methods of the
    [gzipResponseWriter] decorator.  The host framework's response object,
    the underlying [http.ResponseWriter] and the gzip codec are the
    collaborators the middleware talks to; they are modelled just far enough
    to run the middleware on a request. *)

From Stdlib Require Import ZArith List Bool String Ascii Lia.
From Stdlib.Strings Require Import Byte.
From stdpp Require Import gmap strings list fin_maps.

Local Open Scope string_scope.
Local Open Scope Z_scope.
Local Open Scope list_scope.

(** ** Header maps ([http.Header], a [map[string][]string])

    Keys are taken in canonical MIME form, which is the form of every key
    constant the middleware uses. *)

Abbreviation Header := (gmap string (list string)).

Definition HeaderVary : string := "Vary".
Definition HeaderAcceptEncoding : string := "Accept-Encoding".
Definition HeaderContentEncoding : string := "Content-Encoding".
Definition HeaderContentType : string := "Content-Type".
Definition HeaderContentLength : string := "Content-Length".

Definition gzipScheme : string := "gzip".

Definition StatusOK : Z := 200.
Definition StatusNoContent : Z := 204.

(** [h.Get(k)]: the first value stored under [k], or the empty string. *)
Definition Header_Get (h : Header) (k : string) : string :=
  match h !! k with
  | Some (v :: _) => v
  | _ => EmptyString
  end.

(** [h.Set(k, v)]: replace whatever is stored under [k]. *)
Definition Header_Set (h : Header) (k v : string) : Header := <[k := [v]]> h.

(** [h.Add(k, v)]: append to the values stored under [k]. *)
Definition Header_Add (h : Header) (k v : string) : Header :=
  <[k := default [] (h !! k) ++ [v]]> h.

(** [h.Del(k)]. *)
Definition Header_Del (h : Header) (k : string) : Header := delete k h.

(** [strings.Contains(s, substr)]. *)
Fixpoint strings_Contains (s substr : string) : bool :=
  String.prefix substr s ||
  match s with
  | EmptyString => false
  | String _ s' => strings_Contains s' substr
  end.

(** ** Errors and outcomes *)

Inductive error :=
| gzip_invalid_level (level : Z)   (* "gzip: invalid compression level: %d" *)
| handler_error (msg : string).    (* any error of the downstream chain *)

(** How a Go call ends: it returns (an error or nil), or it panics. *)
Inductive outcome :=
| Return (err : option error)
| Panic (msg : string).

(** ** The underlying sink ([http.ResponseWriter])

    The sink is a recorder: it keeps its header map and the calls it
    received, in order.  A status write records the header map as it stands
    at that moment.  Flushing and hijacking are optional capabilities
    ([http.Flusher], [http.Hijacker]).

    The recorder takes every status code and every write as given.  What a
    sink of the Go library adds on its own is not part of it: refusing a
    body after a status that allows none, sending status 200 with the
    headers as they stand when bytes arrive before any status, detecting a
    content type from those bytes.  The properties that would be touched
    by this say which handlers they cover ([statuses_allow_body],
    [status_before_flush] below). *)

Inductive SinkEvent :=
| EvWriteHeader (code : Z) (snapshot : Header)
| EvWrite (b : list byte)
| EvFlush
| EvHijack.

Record HijackReply := {
  hj_conn : nat;              (* the net.Conn handed over *)
  hj_bufrw : nat;             (* its *bufio.ReadWriter *)
  hj_err : option error
}.

Record Sink := {
  s_header : Header;
  s_log : list SinkEvent;
  s_flusher : bool;
  s_hijacker : option HijackReply
}.

Definition sink_with_header (s : Sink) (h : Header) : Sink :=
  {| s_header := h; s_log := s_log s;
     s_flusher := s_flusher s; s_hijacker := s_hijacker s |}.

Definition sink_record (s : Sink) (e : SinkEvent) : Sink :=
  {| s_header := s_header s; s_log := s_log s ++ [e];
     s_flusher := s_flusher s; s_hijacker := s_hijacker s |}.

Definition sink_WriteHeader (s : Sink) (code : Z) : Sink :=
  sink_record s (EvWriteHeader code (s_header s)).

Definition sink_Write (s : Sink) (b : list byte) : Sink :=
  sink_record s (EvWrite b).

Definition sink_Flush (s : Sink) : Sink := sink_record s EvFlush.

(** The bytes of the response body: every write the sink received. *)
Fixpoint log_body (l : list SinkEvent) : list byte :=
  match l with
  | [] => []
  | EvWrite b :: l' => b ++ log_body l'
  | _ :: l' => log_body l'
  end.

Definition sink_body (s : Sink) : list byte := log_body (s_log s).

(** ** The gzip codec, as a black box

    [compress/gzip] is consumed through [Write], [Flush], [Close] and
    [Reset].  A codec gives the encoder state of a [gzip.Writer], the bytes
    each operation sends to the writer underneath, the standard reader run
    to the end of a stream, and what a standard reader can deliver from the
    part of a stream received so far. *)

Record Codec := {
  enc : Type;
  enc_init : Z -> enc;
  enc_write : enc -> list byte -> enc * list byte;
  enc_flush : enc -> enc * list byte;
  enc_close : enc -> enc * list byte;
  gunzip : list byte -> option (list byte);
  gunzip_avail : list byte -> list byte
}.

Inductive GzOp :=
| GzWrite (b : list byte)
| GzFlush.

Definition HuffmanOnly : Z := -2.
Definition BestCompression : Z := 9.

(** The level check of [gzip.NewWriterLevel]. *)
Definition invalid_level (level : Z) : bool :=
  (level <? HuffmanOnly) || (level >? BestCompression).

Section Codec.
Context (C : Codec).

Definition enc_op (e : enc C) (o : GzOp) : enc C * list byte :=
  match o with
  | GzWrite b => enc_write C e b
  | GzFlush => enc_flush C e
  end.

(** Run operations on an encoder, collecting what it emits. *)
Fixpoint enc_run (e : enc C) (ops : list GzOp) : enc C * list byte :=
  match ops with
  | [] => (e, [])
  | o :: ops' =>
      let '(e1, out1) := enc_op e o in
      let '(e2, out2) := enc_run e1 ops' in
      (e2, out1 ++ out2)
  end.



Fixpoint payload (ops : list GzOp) : list byte :=
  match ops with
  | [] => []
  | GzWrite b :: ops' => b ++ payload ops'
  | GzFlush :: ops' => payload ops'
  end.

End Codec.

(** Result of a method call that may panic. *)
Inductive result (A : Type) :=
| Ok (a : A)
| Panicked (msg : string).
Arguments Ok {A} a.
Arguments Panicked {A} msg.

(** Conversion to [int64], wrapping around. *)
Definition int64 (x : Z) : Z := (x + 2 ^ 63) mod 2 ^ 64 - 2 ^ 63.

(** What the package imports from the Go library: [compress/gzip] and
    [http.DetectContentType]. *)
Class Imports := {
  gzip_codec : Codec;
  DetectContentType : list byte -> string
}.

Section Middleware.
Context {I : Imports}.

(** ** [gzip.Writer] *)

(** Where a [gzip.Writer] sends its output: the response writer [rw] it
    was built on, or [ioutil.Discard]. *)
Inductive Target :=
| ToRW
| ToDiscard.

Record GzipWriter := {
  z_w : Target;
  z_level : Z;
  z_enc : enc gzip_codec
}.

Definition gzip_NewWriterLevel (w : Target) (level : Z) : GzipWriter + error :=
  if invalid_level level then inr (gzip_invalid_level level)
  else inl {| z_w := w; z_level := level; z_enc := enc_init gzip_codec level |}.

(** [z.Reset(w)]: back to the initial state, at the same level. *)
Definition gzip_Reset (z : GzipWriter) (w : Target) : GzipWriter :=
  {| z_w := w; z_level := z_level z; z_enc := enc_init gzip_codec (z_level z) |}.

(** The bytes a codec operation sends underneath arrive at the sink as
    one write, or vanish in [ioutil.Discard]. *)
Definition emit (t : Target) (out : list byte) (s : Sink) : Sink :=
  match t with
  | ToRW => sink_Write s out
  | ToDiscard => s
  end.

Definition gzip_step (z : GzipWriter) (r : enc gzip_codec * list byte) (s : Sink)
  : GzipWriter * Sink :=
  ({| z_w := z_w z; z_level := z_level z; z_enc := fst r |},
   emit (z_w z) (snd r) s).

Definition gzip_Write (z : GzipWriter) (p : list byte) (s : Sink)
  : GzipWriter * Sink :=
  gzip_step z (enc_write gzip_codec (z_enc z) p) s.

Definition gzip_Flush (z : GzipWriter) (s : Sink) : GzipWriter * Sink :=
  gzip_step z (enc_flush gzip_codec (z_enc z)) s.

Definition gzip_Close (z : GzipWriter) (s : Sink) : GzipWriter * Sink :=
  gzip_step z (enc_close gzip_codec (z_enc z)) s.

(** ** The host's response object ([route.Response]) and context

    [res.Writer] holds either the sink the host installed or the
    decorator [grw].  The decorator's two fields are references: [Writer]
    to the [gzip.Writer] allocated by the middleware (the cell [gzw]) and
    [ResponseWriter] to the sink. *)

Inductive ActiveWriter :=
| Original
| Decorated.

Record Response := {
  Writer : ActiveWriter;
  Status : Z;
  Size : Z;
  Committed : bool
}.

Record Ctx := {
  Request : Header;
  sink : Sink;
  gzw : option GzipWriter;
  Resp : Response
}.

Definition with_sink (c : Ctx) (s : Sink) : Ctx :=
  {| Request := Request c; sink := s; gzw := gzw c; Resp := Resp c |}.

Definition with_gzw (c : Ctx) (z : option GzipWriter) : Ctx :=
  {| Request := Request c; sink := sink c; gzw := z; Resp := Resp c |}.

Definition with_Resp (c : Ctx) (r : Response) : Ctx :=
  {| Request := Request c; sink := sink c; gzw := gzw c; Resp := r |}.

Definition with_Writer (c : Ctx) (w : ActiveWriter) : Ctx :=
  with_Resp c {| Writer := w; Status := Status (Resp c);
                 Size := Size (Resp c); Committed := Committed (Resp c) |}.

(** [res.Header()]: the header map of the sink, shared by the decorator. *)
Definition ResHeader (c : Ctx) : Header := s_header (sink c).

Definition with_header (c : Ctx) (h : Header) : Ctx :=
  with_sink c (sink_with_header (sink c) h).

(** ** The decorator [gzipResponseWriter]

    [Write] returns what the compressor reports; on the recorder, which
    takes every write, that is the whole length and no error. *)

Definition grw_WriteHeader (c : Ctx) (code : Z) : Ctx :=
  let c :=
    if code =? StatusNoContent
    then with_header c (Header_Del (ResHeader c) HeaderContentEncoding)
    else c in
  let c := with_header c (Header_Del (ResHeader c) HeaderContentLength) in
  with_sink c (sink_WriteHeader (sink c) code).

Definition grw_Write (c : Ctx) (b : list byte)
  : Ctx * result (Z * option error) :=
  let c :=
    if String.eqb (Header_Get (ResHeader c) HeaderContentType) EmptyString
    then with_header c
           (Header_Set (ResHeader c) HeaderContentType (DetectContentType b))
    else c in
  match gzw c with
  | None => (c, Panicked "nil pointer dereference")
  | Some z =>
      let '(z', s') := gzip_Write z b (sink c) in
      (with_gzw (with_sink c s') (Some z'), Ok (Z.of_nat (length b), None))
  end.

Definition grw_Flush (c : Ctx) : Ctx * result unit :=
  match gzw c with
  | None => (c, Panicked "nil pointer dereference")
  | Some z =>
      let '(z', s') := gzip_Flush z (sink c) in
      let c := with_gzw (with_sink c s') (Some z') in
      if s_flusher (sink c)
      then (with_sink c (sink_Flush (sink c)), Ok tt)
      else (c, Ok tt)
  end.

Definition grw_Hijack (c : Ctx) : Ctx * result HijackReply :=
  match s_hijacker (sink c) with
  | Some r => (with_sink c (sink_record (sink c) EvHijack), Ok r)
  | None =>
      (c, Panicked "interface conversion: http.ResponseWriter is not http.Hijacker: missing method Hijack")
  end.

(** ** [route.Response] methods, dispatching on the installed writer *)

Definition Writer_WriteHeader (c : Ctx) (code : Z) : Ctx :=
  match Writer (Resp c) with
  | Original => with_sink c (sink_WriteHeader (sink c) code)
  | Decorated => grw_WriteHeader c code
  end.

Definition Writer_Write (c : Ctx) (b : list byte)
  : Ctx * result (Z * option error) :=
  match Writer (Resp c) with
  | Original =>
      (with_sink c (sink_Write (sink c) b), Ok (Z.of_nat (length b), None))
  | Decorated => grw_Write c b
  end.

(** [r.WriteHeader(code)]: only the first status write goes through. *)
Definition Response_WriteHeader (c : Ctx) (code : Z) : Ctx :=
  if Committed (Resp c) then c
  else
    let c := Writer_WriteHeader c code in
    with_Resp c {| Writer := Writer (Resp c); Status := code;
                   Size := Size (Resp c); Committed := true |}.

(** [r.Write(b)]: commits with status 200 if nothing was committed, writes
    through the installed writer and adds the count to [Size]. *)
Definition Response_Write (c : Ctx) (b : list byte)
  : Ctx * result (Z * option error) :=
  let c := Response_WriteHeader c StatusOK in
  match Writer_Write c b with
  | (c, Ok (n, err)) =>
      (with_Resp c {| Writer := Writer (Resp c); Status := Status (Resp c);
                      Size := int64 (Size (Resp c) + n);
                      Committed := Committed (Resp c) |},
       Ok (n, err))
  | (c, Panicked msg) => (c, Panicked msg)
  end.

(** [r.Flush()]: [r.Writer.(http.Flusher).Flush()]. *)
Definition Response_Flush (c : Ctx) : Ctx * result unit :=
  match Writer (Resp c) with
  | Original =>
      if s_flusher (sink c)
      then (with_sink c (sink_Flush (sink c)), Ok tt)
      else (c, Panicked "interface conversion: http.ResponseWriter is not http.Flusher: missing method Flush")
  | Decorated => grw_Flush c
  end.

(** ** Handlers

    What a handler does to the response is the sequence of calls it makes
    on it, followed by the error it returns.  The calls are header access,
    status writes, body writes and flushes; hijacking is not among them
    and is treated on its own ([grw_Hijack]). *)

Inductive Call :=
| CallHeaderSet (k v : string)
| CallHeaderAdd (k v : string)
| CallHeaderDel (k : string)
| CallWriteHeader (code : Z)
| CallWrite (b : list byte)
| CallFlush.

Definition do_call (c : Ctx) (x : Call) : Ctx * option string :=
  match x with
  | CallHeaderSet k v => (with_header c (Header_Set (ResHeader c) k v), None)
  | CallHeaderAdd k v => (with_header c (Header_Add (ResHeader c) k v), None)
  | CallHeaderDel k => (with_header c (Header_Del (ResHeader c) k), None)
  | CallWriteHeader code => (Response_WriteHeader c code, None)
  | CallWrite b =>
      match Response_Write c b with
      | (c', Ok _) => (c', None)
      | (c', Panicked msg) => (c', Some msg)
      end
  | CallFlush =>
      match Response_Flush c with
      | (c', Ok _) => (c', None)
      | (c', Panicked msg) => (c', Some msg)
      end
  end.

(** Calls run in order; a panic ends the run. *)
Fixpoint run_calls (c : Ctx) (calls : list Call) : Ctx * option string :=
  match calls with
  | [] => (c, None)
  | x :: calls' =>
      match do_call c x with
      | (c', None) => run_calls c' calls'
      | (c', Some msg) => (c', Some msg)
      end
  end.

Definition HandlerFunc : Type := Ctx -> Ctx * outcome.
Definition MiddlewareFunc : Type := Ctx -> HandlerFunc -> Ctx * outcome.

Definition handler (calls : list Call) (ret : option error) : HandlerFunc :=
  fun c =>
    match run_calls c calls with
    | (c', None) => (c', Return ret)
    | (c', Some msg) => (c', Panic msg)
    end.

(** ** Options *)

Record Options := {
  Options_Skipper : Ctx -> bool;
  Options_Level : Z
}.

Definition Option_ : Type := Options -> Options.

(** [route.DefaultSkipper]. *)
Definition DefaultSkipper : Ctx -> bool := fun _ => false.

Definition GetDefaultOptions : Options :=
  {| Options_Skipper := DefaultSkipper; Options_Level := -1 |}.

Definition Skipper (skipper : Ctx -> bool) : Option_ :=
  fun o => {| Options_Skipper := skipper; Options_Level := Options_Level o |}.

Definition Level (level : Z) : Option_ :=
  fun o => {| Options_Skipper := Options_Skipper o; Options_Level := level |}.

Definition apply_options (options : list Option_) : Options :=
  fold_left (fun opts opt => opt opts) options GetDefaultOptions.

(** ** The middleware *)

(** The deferred function of [New]; [rw] is the writer found on entry. *)
Definition finalizer (rw : ActiveWriter) (c : Ctx) : Ctx :=
  let c :=
    if Size (Resp c) =? 0 then
      let c :=
        if String.eqb (Header_Get (ResHeader c) HeaderContentEncoding) gzipScheme
        then with_header c (Header_Del (ResHeader c) HeaderContentEncoding)
        else c in
      let c := with_Writer c rw in
      with_gzw c (option_map (fun w => gzip_Reset w ToDiscard) (gzw c))
    else c in
  match gzw c with
  | Some w =>
      let '(w', s') := gzip_Close w (sink c) in
      with_gzw (with_sink c s') (Some w')
  | None => c
  end.

Definition New (options : list Option_) : MiddlewareFunc :=
  let opts := apply_options options in
  fun c next =>
    if Options_Skipper opts c then next c
    else
      let c := with_header c
                 (Header_Add (ResHeader c) HeaderVary HeaderAcceptEncoding) in
      if strings_Contains (Header_Get (Request c) HeaderAcceptEncoding) gzipScheme
      then
        let c := with_header c
                   (Header_Set (ResHeader c) HeaderContentEncoding gzipScheme) in
        let rw := Writer (Resp c) in
        match gzip_NewWriterLevel ToRW (Options_Level opts) with
        | inr err => (c, Return (Some err))
        | inl w =>
            let c := with_Writer (with_gzw c (Some w)) Decorated in
            let '(c', r) := next c in
            (finalizer rw c', r)
        end
      else next c.

(** ** Vocabulary for the properties *)

(** The three things [New] branches on. *)
Definition skipped (options : list Option_) (c : Ctx) : bool :=
  Options_Skipper (apply_options options) c.

Definition accepts_gzip (c : Ctx) : bool :=
  strings_Contains (Header_Get (Request c) HeaderAcceptEncoding) gzipScheme.

Definition level_of (options : list Option_) : Z :=
  Options_Level (apply_options options).

(** The context once [Vary] was appended. *)
Definition varied (c : Ctx) : Ctx :=
  with_header c (Header_Add (ResHeader c) HeaderVary HeaderAcceptEncoding).

(** The context once [Content-Encoding] was set as well. *)
Definition announced (c : Ctx) : Ctx :=
  with_header (varied c)
    (Header_Set (ResHeader (varied c)) HeaderContentEncoding gzipScheme).

(** The context handed to [next] when compression is switched on. *)
Definition activated (level : Z) (c : Ctx) : Ctx :=
  with_Writer
    (with_gzw (announced c)
       (Some {| z_w := ToRW; z_level := level;
                z_enc := enc_init gzip_codec level |}))
    Decorated.

(** The context [New] hands to [next], and whether it gets that far: it
    does unless compression applies and the compressor cannot be built. *)
Definition handed (options : list Option_) (c : Ctx) : Ctx :=
  if skipped options c then c
  else if accepts_gzip c then activated (level_of options) c
  else varied c.

Definition chain_runs (options : list Option_) (c : Ctx) : bool :=
  skipped options c || negb (accepts_gzip c)
  || negb (invalid_level (level_of options)).

(** What a sequence of calls asks of the compressor once the decorator is
    installed, and the bytes it writes. *)
Fixpoint gz_ops (calls : list Call) : list GzOp :=
  match calls with
  | [] => []
  | CallWrite b :: calls' => GzWrite b :: gz_ops calls'
  | CallFlush :: calls' => GzFlush :: gz_ops calls'
  | _ :: calls' => gz_ops calls'
  end.

Definition written (calls : list Call) : list byte := payload (gz_ops calls).

(** The handler leaves [Content-Encoding] alone: no header call names it
    and no 204 status is written. *)
Definition keeps_encoding_call (x : Call) : bool :=
  match x with
  | CallHeaderSet k _ | CallHeaderAdd k _ | CallHeaderDel k =>
      negb (String.eqb k HeaderContentEncoding)
  | CallWriteHeader code => negb (code =? StatusNoContent)
  | _ => true
  end.

Definition keeps_encoding (calls : list Call) : bool :=
  forallb keeps_encoding_call calls.

(** The handler makes no header call on key [k]. *)
Definition leaves_key (k : string) (calls : list Call) : bool :=
  forallb (fun x => match x with
                    | CallHeaderSet k' _ | CallHeaderAdd k' _
                    | CallHeaderDel k' => negb (String.eqb k' k)
                    | _ => true
                    end) calls.

(** The handler neither writes nor flushes. *)
Definition silent (calls : list Call) : bool :=
  forallb (fun x => match x with
                    | CallWrite _ | CallFlush => false
                    | _ => true
                    end) calls.

(** Two contexts that differ at most in the header values stored under
    [k] (and so in the header snapshots their sinks recorded). *)
Definition agree_off (k : string) (c1 c2 : Ctx) : Prop :=
  Request c1 = Request c2
  /\ gzw c1 = gzw c2
  /\ Resp c1 = Resp c2
  /\ s_flusher (sink c1) = s_flusher (sink c2)
  /\ s_hijacker (sink c1) = s_hijacker (sink c2)
  /\ sink_body (sink c1) = sink_body (sink c2)
  /\ forall k', k' <> k -> ResHeader c1 !! k' = ResHeader c2 !! k'.

(** The bytes of the first write among the calls, if there is one. *)
Fixpoint first_write (calls : list Call) : option (list byte) :=
  match calls with
  | [] => None
  | CallWrite b :: _ => Some b
  | _ :: calls' => first_write calls'
  end.

(** A sink event the decorator may cause: a status write must carry no
    Content-Length and, for status 204, no Content-Encoding; the decorator
    never hijacks on its own. *)
Definition clean_event (e : SinkEvent) : Prop :=
  match e with
  | EvWriteHeader code h =>
      h !! HeaderContentLength = None
      /\ (code = StatusNoContent -> h !! HeaderContentEncoding = None)
  | EvWrite _ | EvFlush => True
  | EvHijack => False
  end.

(** The sink of [c'] has received what the sink of [c] had, followed by
    events that are all clean. *)
Definition extends_cleanly (c c' : Ctx) : Prop :=
  exists l, s_log (sink c') = s_log (sink c) ++ l /\ Forall clean_event l.

(** The Content-Type value after the decorator saw the calls' writes,
    starting from value [t]: an empty value is replaced by what the first
    write's bytes are detected as. *)
Definition sniffed (t : string) (calls : list Call) : string :=
  if String.eqb t EmptyString then
    match first_write calls with
    | Some b => DetectContentType b
    | None => EmptyString
    end
  else t.


(** What a sink received, when it did not start with body bytes: nothing,
    or a status write first. *)
Definition status_first (l : list SinkEvent) : Prop :=
  match l with
  | [] | EvWriteHeader _ _ :: _ => True
  | _ => False
  end.

(** Status codes, as [net/http] sorts them: a status write panics on a
    code outside 100..999; codes below 200 are informational and do not
    end the header phase; no body may follow a 1xx, 204 or 304 status. *)
Definition valid_status (code : Z) : bool :=
  (100 <=? code) && (code <=? 999).

Definition final_status (code : Z) : bool :=
  (200 <=? code) && (code <=? 999).


Definition statuses_satisfy (p : Z -> bool) (calls : list Call) : bool :=
  forallb (fun x => match x with
                    | CallWriteHeader code => p code
                    | _ => true
                    end) calls.


(** The handler does not flush before its first status or body write, so
    the sink gets a status before it gets any byte. *)
Fixpoint status_before_flush (calls : list Call) : bool :=
  match calls with
  | [] => true
  | CallFlush :: _ => false
  | CallWriteHeader _ :: _ | CallWrite _ :: _ => true
  | _ :: calls' => status_before_flush calls'
  end.

(** [mux.NewContext(req, rec)]: a fresh response on the sink. *)
Definition NewContext (req : Header) (s : Sink) : Ctx :=
  {| Request := req; sink := s; gzw := None;
     Resp := {| Writer := Original; Status := 0; Size := 0;
                Committed := false |} |}.
End Middleware.

(** ** A reference codec: gzip framing around stored deflate blocks

    The gzip member format with the deflate payload written as stored
    (uncompressed) blocks.  It follows [gzip.Writer]: the ten-byte header is
    written lazily by the first [Write], [Flush] or [Close]; [Flush] ends on
    an empty stored block; [Close] writes the final block and the trailer
    (CRC-32 and length, little endian).  The reader is fed byte by byte, so
    it is its own incremental reader. *)

Module StoredGzip.

Definition Z_of_byte (b : byte) : Z := Z.of_N (Byte.to_N b).

Definition byte_of_Z (z : Z) : byte :=
  default x00 (Byte.of_N (Z.to_N (z mod 256))).

Definition le16 (z : Z) : list byte := [byte_of_Z z; byte_of_Z (z / 2 ^ 8)].

Definition le32 (z : Z) : list byte :=
  [byte_of_Z z; byte_of_Z (z / 2 ^ 8);
   byte_of_Z (z / 2 ^ 16); byte_of_Z (z / 2 ^ 24)].

Fixpoint read_le (l : list byte) : Z :=
  match l with
  | [] => 0
  | b :: l' => Z_of_byte b + 256 * read_le l'
  end.

(** CRC-32 (IEEE), bit by bit. *)
Definition crc_bit (c : Z) : Z :=
  if Z.testbit c 0 then Z.lxor (Z.shiftr c 1) 0xEDB88320 else Z.shiftr c 1.

Definition crc_byte (c : Z) (b : byte) : Z :=
  Nat.iter 8 crc_bit (Z.lxor c (Z_of_byte b)).

Definition crc32_Update (crc : Z) (p : list byte) : Z :=
  Z.lxor (fold_left crc_byte p (Z.lxor crc 0xFFFFFFFF)) 0xFFFFFFFF.

Record Enc := {
  e_level : Z;
  e_wroteHeader : bool;
  e_closed : bool;
  e_digest : Z;
  e_size : Z
}.

Definition init (level : Z) : Enc :=
  {| e_level := level; e_wroteHeader := false; e_closed := false;
     e_digest := 0; e_size := 0 |}.

Definition BestSpeed : Z := 1.

Definition member_header (level : Z) : list byte :=
  [x1f; x8b; x08; x00; x00; x00; x00; x00;
   (if level =? BestCompression then x02
    else if level =? BestSpeed then x04 else x00);
   xff].

(** The lazily written header. *)
Definition opening (e : Enc) : Enc * list byte :=
  if e_wroteHeader e then (e, [])
  else ({| e_level := e_level e; e_wroteHeader := true;
           e_closed := e_closed e; e_digest := e_digest e;
           e_size := e_size e |},
        member_header (e_level e)).

Definition max_stored : nat := Z.to_nat 65535.

Definition stored_block (final : bool) (chunk : list byte) : list byte :=
  (if final then x01 else x00)
    :: le16 (Z.of_nat (length chunk))
    ++ le16 (65535 - Z.of_nat (length chunk))
    ++ chunk.

Fixpoint stored_blocks (fuel : nat) (p : list byte) : list byte :=
  match fuel, p with
  | S fuel', _ :: _ =>
      stored_block false (firstn max_stored p)
        ++ stored_blocks fuel' (skipn max_stored p)
  | _, _ => []
  end.

Definition write (e : Enc) (p : list byte) : Enc * list byte :=
  let '(e, h) := opening e in
  ({| e_level := e_level e; e_wroteHeader := e_wroteHeader e;
      e_closed := e_closed e;
      e_digest := crc32_Update (e_digest e) p;
      e_size := (e_size e + Z.of_nat (length p)) mod 2 ^ 32 |},
   h ++ stored_blocks (length p) p).

Definition flush (e : Enc) : Enc * list byte :=
  if e_closed e then (e, [])
  else
    let '(e, h) := opening e in
    (e, h ++ stored_block false []).

Definition close (e : Enc) : Enc * list byte :=
  if e_closed e then (e, [])
  else
    let '(e, h) := opening e in
    ({| e_level := e_level e; e_wroteHeader := e_wroteHeader e;
        e_closed := true; e_digest := e_digest e; e_size := e_size e |},
     h ++ stored_block true [] ++ le32 (e_digest e) ++ le32 (e_size e)).

(** The reader. *)
Inductive RState :=
| RHeader (seen : list byte)
| RBlock (seen : list byte)
| RData (final : bool) (remaining : nat)
| RTrailer (seen : list byte)
| RDone
| RFail.

Record Reader := {
  r_state : RState;
  r_out : list byte
}.

Definition after_block (final : bool) : RState :=
  if final then RTrailer [] else RBlock [].

Definition check_header (h : list byte) : RState :=
  match h with
  | [x1f; x8b; x08; x00; _; _; _; _; _; _] => RBlock []
  | _ => RFail
  end.

Definition check_block (h : list byte) : RState :=
  match h with
  | [t; l0; l1; n0; n1] =>
      let len := read_le [l0; l1] in
      if negb (len + read_le [n0; n1] =? 65535) then RFail
      else
        match t with
        | x00 => if len =? 0 then after_block false
                 else RData false (Z.to_nat len)
        | x01 => if len =? 0 then after_block true
                 else RData true (Z.to_nat len)
        | _ => RFail
        end
  | _ => RFail
  end.

Definition check_trailer (out t : list byte) : RState :=
  if (read_le (firstn 4 t) =? crc32_Update 0 out)
     && (read_le (skipn 4 t) =? Z.of_nat (length out) mod 2 ^ 32)
  then RDone else RFail.

Definition feed (r : Reader) (b : byte) : Reader :=
  match r_state r with
  | RHeader seen =>
      let seen := seen ++ [b] in
      {| r_state := if (length seen =? 10)%nat then check_header seen
                    else RHeader seen;
         r_out := r_out r |}
  | RBlock seen =>
      let seen := seen ++ [b] in
      {| r_state := if (length seen =? 5)%nat then check_block seen
                    else RBlock seen;
         r_out := r_out r |}
  | RData final remaining =>
      {| r_state := match remaining with
                    | S (S n) => RData final (S n)
                    | _ => after_block final
                    end;
         r_out := r_out r ++ [b] |}
  | RTrailer seen =>
      let seen := seen ++ [b] in
      {| r_state := if (length seen =? 8)%nat
                    then check_trailer (r_out r) seen
                    else RTrailer seen;
         r_out := r_out r |}
  | RDone => {| r_state := RFail; r_out := r_out r |}
  | RFail => r
  end.

Definition start : Reader := {| r_state := RHeader []; r_out := [] |}.

Definition read (data : list byte) : Reader := fold_left feed data start.

Definition decode (data : list byte) : option (list byte) :=
  match r_state (read data) with
  | RDone => Some (r_out (read data))
  | _ => None
  end.

Definition decode_avail (data : list byte) : list byte := r_out (read data).

Definition codec : Codec :=
  Build_Codec Enc init write flush close decode decode_avail.


End StoredGzip.

(** The imports with the reference codec; content types are not told
    apart. *)
#[global] Instance reference_imports : Imports :=
  {| gzip_codec := StoredGzip.codec;
     DetectContentType := fun _ => "application/octet-stream" |}.

(** ** Concrete requests, sinks and handlers *)

Module Scenario.

(** [httptest.NewRecorder()]: it can flush, it cannot be hijacked. *)
Definition recorder : Sink :=
  {| s_header := ∅; s_log := []; s_flusher := true; s_hijacker := None |}.

(** A sink that can be hijacked but not flushed. *)
Definition raw_conn : Sink :=
  {| s_header := ∅; s_log := []; s_flusher := false;
     s_hijacker := Some {| hj_conn := 1; hj_bufrw := 2; hj_err := None |} |}.

Definition gzip_request : Header := {[ HeaderAcceptEncoding := [gzipScheme] ]}.
Definition plain_request : Header := ∅.

Definition fresh : Ctx := NewContext gzip_request recorder.
Definition fresh_plain : Ctx := NewContext plain_request recorder.

Definition test_bytes : list byte := ["t"; "e"; "s"; "t"]%byte.
Definition test_line : list byte := ["t"; "e"; "s"; "t"; "010"]%byte.

Definition not_found : error := handler_error "Not Found".

(** The handler of [TestGzip]. *)
Definition write_test : HandlerFunc := handler [CallWrite test_bytes] None.

(** The handler of [TestGzipNoContent]: [c.NoContent(204)]. *)
Definition no_content : HandlerFunc :=
  handler [CallWriteHeader StatusNoContent] None.

(** Handlers that send no body byte: one that only flushes, one that
    writes an empty slice, one that only writes status 200, and one that
    writes status 404 and returns an error. *)
Definition flush_only : HandlerFunc := handler [CallFlush] None.
Definition write_nothing : HandlerFunc := handler [CallWrite []] None.
Definition status_only : HandlerFunc := handler [CallWriteHeader StatusOK] None.
Definition fail_not_found : HandlerFunc :=
  handler [CallWriteHeader 404] (Some not_found).

End Scenario.

(** * Properties *)

(** ** Header maps *)

Lemma Header_Get_Set (h : Header) k v : Header_Get (Header_Set h k v) k = v.
Proof. unfold Header_Get, Header_Set. by rewrite lookup_insert_eq. Qed.

Lemma Header_Get_Del (h : Header) k :
  Header_Get (Header_Del h k) k = EmptyString.
Proof. unfold Header_Get, Header_Del. by rewrite lookup_delete_eq. Qed.

Lemma Header_Add_lookup (h : Header) k v :
  Header_Add h k v !! k = Some (default [] (h !! k) ++ [v]).
Proof. unfold Header_Add. by rewrite lookup_insert_eq. Qed.

(** ** The four ways through [New] *)

Section Paths.
Context {I : Imports}.
Implicit Types (c : Ctx) (next : HandlerFunc) (options : list Option_).

Lemma New_skip options c next :
  skipped options c = true -> New options c next = next c.
Proof. unfold skipped, New. intros ->. reflexivity. Qed.

Lemma New_plain options c next :
  skipped options c = false -> accepts_gzip c = false ->
  New options c next = next (varied c).
Proof.
  unfold skipped, accepts_gzip, New. intros -> Hacc.
  cbn [Request with_header with_sink]. rewrite Hacc. reflexivity.
Qed.

Lemma New_invalid options c next :
  skipped options c = false -> accepts_gzip c = true ->
  invalid_level (level_of options) = true ->
  New options c next
  = (announced c, Return (Some (gzip_invalid_level (level_of options)))).
Proof.
  unfold skipped, accepts_gzip, level_of, New, gzip_NewWriterLevel.
  intros -> Hacc Hlvl.
  cbn [Request with_header with_sink]. rewrite Hacc, Hlvl. reflexivity.
Qed.

Lemma New_gzip options c next :
  skipped options c = false -> accepts_gzip c = true ->
  invalid_level (level_of options) = false ->
  New options c next
  = (finalizer (Writer (Resp c)) (fst (next (activated (level_of options) c))),
     snd (next (activated (level_of options) c))).
Proof.
  unfold skipped, accepts_gzip, level_of, New, gzip_NewWriterLevel.
  intros -> Hacc Hlvl.
  cbn [Request with_header with_sink]. rewrite Hacc, Hlvl.
  fold (varied c). fold (announced c).
  change (with_Writer (with_gzw (announced c) _) Decorated)
    with (activated (Options_Level (apply_options options)) c).
  destruct (next _) as [c' r]. reflexivity.
Qed.

Lemma New_handed options c next :
  chain_runs options c = true ->
  snd (New options c next) = snd (next (handed options c)).
Proof.
  unfold chain_runs, handed. intros H.
  destruct (skipped options c) eqn:Hs; [by rewrite New_skip|].
  destruct (accepts_gzip c) eqn:Ha; [|by rewrite New_plain].
  destruct (invalid_level (level_of options)) eqn:Hl; [discriminate|].
  by rewrite New_gzip.
Qed.

End Paths.

(** ** The deferred clean-up *)

Section Finalizer.
Context {I : Imports}.
Implicit Types (c : Ctx) (rw : ActiveWriter).

(** Nothing counted: no gzip announcement is left, the entry writer is
    back, the compressor points at the discard sink, and the sink has
    received nothing from the clean-up. *)
Lemma finalizer_reverts rw c :
  Size (Resp c) = 0 ->
  Header_Get (ResHeader (finalizer rw c)) HeaderContentEncoding <> gzipScheme
  /\ ResHeader (finalizer rw c)
     = (if String.eqb (Header_Get (ResHeader c) HeaderContentEncoding) gzipScheme
        then Header_Del (ResHeader c) HeaderContentEncoding
        else ResHeader c)
  /\ Writer (Resp (finalizer rw c)) = rw
  /\ s_log (sink (finalizer rw c)) = s_log (sink c)
  /\ (forall z, gzw (finalizer rw c) = Some z -> z_w z = ToDiscard).
Proof.
  intros Hz. destruct c as [req [h l f j] g [wr st sz cm]].
  cbn in Hz. subst sz. unfold finalizer.
  cbn [Resp Size]. change (0 =? 0) with true. cbv iota.
  unfold ResHeader, with_header, with_Writer, with_Resp, with_gzw, with_sink,
    sink_with_header, gzip_Close, gzip_step, gzip_Reset, emit.
  cbn [Request sink gzw Resp Writer Status Size Committed s_header s_log
       s_flusher s_hijacker].
  destruct (String.eqb (Header_Get h HeaderContentEncoding) gzipScheme) eqn:E;
    destruct g as [[t lvl e]|];
    cbn [option_map Request sink gzw Resp Writer Status Size Committed
         s_header s_log s_flusher s_hijacker z_w z_level z_enc fst snd];
    (split; [|repeat split; try reflexivity; intros z [= <-]; reflexivity]).
  1-2: rewrite Header_Get_Del; discriminate.
  1-2: by apply String.eqb_neq.
Qed.

(** Something counted: the clean-up only closes the compressor. *)
Lemma finalizer_closes rw c z :
  Size (Resp c) <> 0 -> gzw c = Some z ->
  finalizer rw c
  = with_gzw
      (with_sink c (emit (z_w z) (snd (enc_close gzip_codec (z_enc z))) (sink c)))
      (Some {| z_w := z_w z; z_level := z_level z;
               z_enc := fst (enc_close gzip_codec (z_enc z)) |}).
Proof.
  intros Hz Hg. unfold finalizer.
  apply Z.eqb_neq in Hz. rewrite Hz, Hg. reflexivity.
Qed.

End Finalizer.

(** ** Codec runs, bodies, counters *)

Lemma enc_run_app (C : Codec) (e : enc C) ops1 ops2 :
  enc_run C e (ops1 ++ ops2)
  = (fst (enc_run C (fst (enc_run C e ops1)) ops2),
     snd (enc_run C e ops1) ++ snd (enc_run C (fst (enc_run C e ops1)) ops2)).
Proof.
  revert e. induction ops1 as [|o ops1 IH]; intros e.
  - cbn. destruct (enc_run C e ops2). reflexivity.
  - cbn [app enc_run]. destruct (enc_op C e o) as [e1 out1].
    rewrite IH. destruct (enc_run C e1 ops1) as [e2 out2]. cbn [fst snd].
    rewrite app_assoc. reflexivity.
Qed.

Lemma payload_app ops1 ops2 :
  payload (ops1 ++ ops2) = payload ops1 ++ payload ops2.
Proof.
  induction ops1 as [|[b|] ops1 IH]; cbn [app payload]; [reflexivity| |exact IH].
  rewrite IH, app_assoc. reflexivity.
Qed.

Lemma log_body_app l1 l2 : log_body (l1 ++ l2) = log_body l1 ++ log_body l2.
Proof.
  induction l1 as [|[] l1 IH]; cbn [app log_body]; rewrite ?IH; try reflexivity.
  apply app_assoc.
Qed.


Lemma sink_body_WriteHeader s code :
  sink_body (sink_WriteHeader s code) = sink_body s.
Proof.
  unfold sink_body, sink_WriteHeader, sink_record. cbn [s_log].
  rewrite log_body_app. cbn. apply app_nil_r.
Qed.


Lemma int64_add_l a b : int64 (int64 a + b) = int64 (a + b).
Proof.
  unfold int64. f_equal.
  replace (((a + 2 ^ 63) mod 2 ^ 64 - 2 ^ 63 + b + 2 ^ 63))
    with ((a + 2 ^ 63) mod 2 ^ 64 + b) by lia.
  rewrite Z.add_mod_idemp_l by lia. f_equal. lia.
Qed.


Lemma int64_idem x : int64 (int64 x) = int64 x.
Proof.
  replace (int64 x) with (int64 x + 0) at 1 by lia.
  rewrite int64_add_l. f_equal. lia.
Qed.

(** ** The reference codec obeys the codec laws *)

Module StoredGzipFacts.
Import StoredGzip.

























End StoredGzipFacts.

(** ** Running a handler behind the decorator *)

Section Decorator.
Context {I : Imports}.
Implicit Types (c : Ctx) (z : GzipWriter) (calls : list Call).

Ltac unfold_calls :=
  unfold do_call, Response_Write, Response_Flush, Response_WriteHeader,
    Writer_Write, Writer_WriteHeader, grw_Write, grw_Flush, grw_WriteHeader,
    gzip_Write, gzip_Flush, gzip_step, emit, with_header, with_Resp, with_gzw,
    with_sink, ResHeader;
  cbn [Request sink gzw Resp Writer Status Size Committed
       z_w z_level z_enc fst snd].

Ltac proj_simpl :=
  cbn [Request sink gzw Resp Writer Status Size Committed
       z_w z_level z_enc fst snd gz_ops enc_run enc_op written payload
       length app].

Ltac split_ifs :=
  repeat match goal with
         | |- context [if ?b then _ else _] => destruct b eqn:?
         end.

Ltac body_simpl :=
  unfold sink_body, sink_Write, sink_WriteHeader, sink_Flush, sink_record,
    sink_with_header;
  cbn [s_log s_header s_flusher s_hijacker];
  rewrite ?log_body_app; cbn [log_body]; rewrite ?app_nil_r.

(** One call made while the decorator is installed: it does not panic, the
    decorator stays installed, the compressor sees the call's operation and
    the sink receives what the compressor emits. *)
Lemma do_call_decorated c z x :
  Writer (Resp c) = Decorated -> gzw c = Some z -> z_w z = ToRW ->
  exists c' z',
    do_call c x = (c', None)
    /\ Writer (Resp c') = Decorated
    /\ gzw c' = Some z'
    /\ z_w z' = ToRW
    /\ z_level z' = z_level z
    /\ z_enc z' = fst (enc_run gzip_codec (z_enc z) (gz_ops [x]))
    /\ sink_body (sink c')
       = sink_body (sink c) ++ snd (enc_run gzip_codec (z_enc z) (gz_ops [x]))
    /\ int64 (Size (Resp c'))
       = int64 (Size (Resp c) + Z.of_nat (length (written [x])))
    /\ s_flusher (sink c') = s_flusher (sink c)
    /\ (keeps_encoding_call x = true ->
        ResHeader c' !! HeaderContentEncoding
        = ResHeader c !! HeaderContentEncoding).
Proof.
  intros HW Hz Ht. destruct c as [req s g [wr st sz cm]].
  cbn in HW, Hz. subst wr g. destruct z as [t lvl e]. cbn in Ht. subst t.
  destruct x as [k v|k v|k|code|b|]; unfold_calls.
  1-3: eexists _, _; (split; [reflexivity|]); proj_simpl;
       rewrite ?app_nil_r, ?Z.add_0_r; body_simpl;
       repeat split; try reflexivity;
       intros Hk; apply negb_true_iff, String.eqb_neq in Hk;
       unfold Header_Set, Header_Add, Header_Del;
       by rewrite ?lookup_insert_ne, ?lookup_delete_ne.
  - split_ifs; eexists _, _;
      (split; [reflexivity|]); proj_simpl;
      rewrite ?app_nil_r, ?Z.add_0_r; body_simpl;
      repeat split; try reflexivity.
    + intros Hk. cbn [keeps_encoding_call] in Hk. rewrite Heqb0 in Hk. discriminate.
    + intros _. unfold Header_Del. by rewrite lookup_delete_ne.
  - destruct (enc_write gzip_codec e b) as [e1 o1] eqn:Ew.
    destruct cm; change (StatusOK =? StatusNoContent) with false;
      unfold_calls; split_ifs; rewrite ?Ew; eexists _, _;
      (split; [reflexivity|]); proj_simpl; rewrite ?Ew; proj_simpl;
      rewrite ?app_nil_r, ?int64_idem; body_simpl;
      repeat split; try reflexivity;
      intros _; unfold Header_Set, Header_Del;
      by rewrite ?lookup_insert_ne, ?lookup_delete_ne.
  - destruct (enc_flush gzip_codec e) as [e1 o1] eqn:Ef.
    split_ifs; eexists _, _;
      (split; [reflexivity|]); proj_simpl; rewrite ?Ef; proj_simpl;
      rewrite ?app_nil_r, ?Z.add_0_r; body_simpl;
      repeat split; reflexivity.
Qed.

Lemma gz_ops_cons x calls : gz_ops (x :: calls) = gz_ops [x] ++ gz_ops calls.
Proof. destruct x; reflexivity. Qed.

Lemma written_cons x calls : written (x :: calls) = written [x] ++ written calls.
Proof.
  unfold written. rewrite gz_ops_cons. apply payload_app.
Qed.

(** The same for a whole run of calls. *)
Lemma run_calls_decorated calls c z :
  Writer (Resp c) = Decorated -> gzw c = Some z -> z_w z = ToRW ->
  exists c' z',
    run_calls c calls = (c', None)
    /\ Writer (Resp c') = Decorated
    /\ gzw c' = Some z'
    /\ z_w z' = ToRW
    /\ z_level z' = z_level z
    /\ z_enc z' = fst (enc_run gzip_codec (z_enc z) (gz_ops calls))
    /\ sink_body (sink c')
       = sink_body (sink c) ++ snd (enc_run gzip_codec (z_enc z) (gz_ops calls))
    /\ int64 (Size (Resp c'))
       = int64 (Size (Resp c) + Z.of_nat (length (written calls)))
    /\ s_flusher (sink c') = s_flusher (sink c)
    /\ (keeps_encoding calls = true ->
        ResHeader c' !! HeaderContentEncoding
        = ResHeader c !! HeaderContentEncoding).
Proof.
  revert c z. induction calls as [|x calls IH]; intros c z HW Hz Ht.
  - exists c, z. cbn. rewrite app_nil_r, Z.add_0_r. repeat split; auto.
  - destruct (do_call_decorated c z x HW Hz Ht)
      as (c1 & z1 & E1 & HW1 & Hz1 & Ht1 & Hl1 & He1 & Hb1 & Hs1 & Hf1 & Hh1).
    destruct (IH c1 z1 HW1 Hz1 Ht1)
      as (c2 & z2 & E2 & HW2 & Hz2 & Ht2 & Hl2 & He2 & Hb2 & Hs2 & Hf2 & Hh2).
    exists c2, z2. cbn [run_calls]. rewrite E1.
    rewrite gz_ops_cons, written_cons, enc_run_app. cbn [fst snd].
    rewrite <- He1.
    repeat split; try assumption; try congruence.
    + rewrite Hb2, Hb1, app_assoc. reflexivity.
    + rewrite Hs2, length_app, Nat2Z.inj_add, Z.add_assoc.
      rewrite <- int64_add_l, Hs1, int64_add_l. reflexivity.
    + intros Hk. cbn [keeps_encoding forallb] in Hk.
      apply andb_true_iff in Hk as [Hk1 Hk2].
      rewrite Hh2, Hh1; auto.
Qed.

Lemma silent_gz_ops calls : silent calls = true -> gz_ops calls = [].
Proof.
  induction calls as [|x calls IH]; [reflexivity|].
  cbn [silent forallb]. intros H. apply andb_true_iff in H as [Hx H].
  destruct x; try discriminate; cbn [gz_ops]; auto.
Qed.

(** A handler that neither writes nor flushes leaves the body alone. *)
Lemma silent_body calls ret level c :
  silent calls = true ->
  log_body (s_log (sink (fst (handler calls ret (activated level c)))))
  = sink_body (sink c).
Proof.
  intros Hsil. unfold handler.
  destruct (run_calls_decorated calls (activated level c) _
              eq_refl eq_refl eq_refl)
    as (c' & z' & E & _ & _ & _ & _ & _ & Hb & _).
  rewrite E. cbn [fst]. fold (sink_body (sink c')). rewrite Hb.
  rewrite (silent_gz_ops calls Hsil). cbn. apply app_nil_r.
Qed.

End Decorator.

(** ** A handler cannot tell two responses apart by their Vary values *)

Section Frame.
Context {I : Imports}.
Implicit Types (c : Ctx) (calls : list Call).

Lemma Header_Get_agree (h1 h2 : Header) k :
  h1 !! k = h2 !! k -> Header_Get h1 k = Header_Get h2 k.
Proof. unfold Header_Get. intros ->. reflexivity. Qed.

Lemma agree_Del (h1 h2 : Header) k0 k :
  (forall k', k' <> k0 -> h1 !! k' = h2 !! k') ->
  forall k', k' <> k0 -> Header_Del h1 k !! k' = Header_Del h2 k !! k'.
Proof.
  intros Hh k' Hk. unfold Header_Del. rewrite !lookup_delete.
  case_decide; auto.
Qed.

Lemma agree_Set (h1 h2 : Header) k0 k v :
  (forall k', k' <> k0 -> h1 !! k' = h2 !! k') ->
  forall k', k' <> k0 -> Header_Set h1 k v !! k' = Header_Set h2 k v !! k'.
Proof.
  intros Hh k' Hk. unfold Header_Set. rewrite !lookup_insert.
  case_decide; auto.
Qed.

Lemma agree_Add (h1 h2 : Header) k0 k v :
  (forall k', k' <> k0 -> h1 !! k' = h2 !! k') ->
  forall k', k' <> k0 -> Header_Add h1 k v !! k' = Header_Add h2 k v !! k'.
Proof.
  intros Hh k' Hk. unfold Header_Add. rewrite !lookup_insert.
  case_decide; auto. subst k'. rewrite Hh; auto.
Qed.

(** Contexts taken apart, with everything [agree_off] equates identified. *)
Ltac agree_intro c1 c2 Hb Hh :=
  destruct c1 as [?req [?h ?l ?f ?j] ?g ?r], c2 as [?req [?h ?l ?f ?j] ?g ?r];
  unfold agree_off, ResHeader, sink_body;
  cbn [Request sink gzw Resp s_header s_log s_flusher s_hijacker];
  intros (-> & -> & -> & -> & -> & Hb & Hh).

Ltac agree_simpl :=
  unfold emit, with_header, with_Resp, with_gzw, with_sink, ResHeader,
    sink_with_header, sink_Write, sink_WriteHeader, sink_Flush, sink_record,
    sink_body;
  cbn [Request sink gzw Resp s_header s_log s_flusher s_hijacker fst snd].

Ltac agree_close Hb :=
  repeat split;
  first [ assumption | reflexivity | solve [auto]
        | rewrite ?log_body_app, ?Hb; reflexivity ].

Lemma with_header_agree c1 c2 (h1 h2 : Header) :
  agree_off HeaderVary c1 c2 ->
  (forall k', k' <> HeaderVary -> h1 !! k' = h2 !! k') ->
  agree_off HeaderVary (with_header c1 h1) (with_header c2 h2).
Proof.
  agree_intro c1 c2 Hb Hh. intros Hh'. agree_simpl. agree_close Hb.
Qed.

Lemma with_Resp_agree c1 c2 r :
  agree_off HeaderVary c1 c2 ->
  agree_off HeaderVary (with_Resp c1 r) (with_Resp c2 r).
Proof. agree_intro c1 c2 Hb Hh. agree_simpl. agree_close Hb. Qed.

Lemma agree_headers c1 c2 :
  agree_off HeaderVary c1 c2 ->
  forall k', k' <> HeaderVary -> ResHeader c1 !! k' = ResHeader c2 !! k'.
Proof. intros H. apply H. Qed.

Lemma sink_WriteHeader_agree c1 c2 code :
  agree_off HeaderVary c1 c2 ->
  agree_off HeaderVary (with_sink c1 (sink_WriteHeader (sink c1) code))
                       (with_sink c2 (sink_WriteHeader (sink c2) code)).
Proof. agree_intro c1 c2 Hb Hh. agree_simpl. agree_close Hb. Qed.

Lemma sink_Write_agree c1 c2 b :
  agree_off HeaderVary c1 c2 ->
  agree_off HeaderVary (with_sink c1 (sink_Write (sink c1) b))
                       (with_sink c2 (sink_Write (sink c2) b)).
Proof. agree_intro c1 c2 Hb Hh. agree_simpl. agree_close Hb. Qed.

Lemma sink_Flush_agree c1 c2 :
  agree_off HeaderVary c1 c2 ->
  agree_off HeaderVary (with_sink c1 (sink_Flush (sink c1)))
                       (with_sink c2 (sink_Flush (sink c2))).
Proof. agree_intro c1 c2 Hb Hh. agree_simpl. agree_close Hb. Qed.

Lemma grw_WriteHeader_agree c1 c2 code :
  agree_off HeaderVary c1 c2 ->
  agree_off HeaderVary (grw_WriteHeader c1 code) (grw_WriteHeader c2 code).
Proof.
  intros H. unfold grw_WriteHeader.
  apply sink_WriteHeader_agree, with_header_agree.
  - destruct (code =? StatusNoContent); [|exact H].
    apply with_header_agree; [exact H|].
    apply agree_Del, agree_headers, H.
  - apply agree_Del, agree_headers.
    destruct (code =? StatusNoContent); [|exact H].
    apply with_header_agree; [exact H|].
    apply agree_Del, agree_headers, H.
Qed.

Lemma Response_WriteHeader_agree c1 c2 code :
  agree_off HeaderVary c1 c2 ->
  agree_off HeaderVary (Response_WriteHeader c1 code)
                       (Response_WriteHeader c2 code).
Proof.
  intros H. unfold Response_WriteHeader, Writer_WriteHeader.
  pose proof H as (_ & _ & HR & _). rewrite HR.
  destruct (Committed (Resp c2)); [exact H|].
  assert (H' : agree_off HeaderVary
                 (match Writer (Resp c2) with
                  | Original => with_sink c1 (sink_WriteHeader (sink c1) code)
                  | Decorated => grw_WriteHeader c1 code
                  end)
                 (match Writer (Resp c2) with
                  | Original => with_sink c2 (sink_WriteHeader (sink c2) code)
                  | Decorated => grw_WriteHeader c2 code
                  end)).
  { destruct (Writer (Resp c2));
      [apply sink_WriteHeader_agree | apply grw_WriteHeader_agree]; exact H. }
  pose proof H' as (_ & _ & HR' & _). rewrite HR'.
  apply with_Resp_agree, H'.
Qed.

Lemma gzip_emit_agree c1 c2 z out :
  agree_off HeaderVary c1 c2 ->
  agree_off HeaderVary
    (with_gzw (with_sink c1 (emit (z_w z) out (sink c1))) (Some z))
    (with_gzw (with_sink c2 (emit (z_w z) out (sink c2))) (Some z)).
Proof.
  agree_intro c1 c2 Hb Hh. destruct (z_w z); agree_simpl; agree_close Hb.
Qed.

Lemma grw_Write_agree c1 c2 b :
  agree_off HeaderVary c1 c2 ->
  snd (grw_Write c1 b) = snd (grw_Write c2 b)
  /\ agree_off HeaderVary (fst (grw_Write c1 b)) (fst (grw_Write c2 b)).
Proof.
  intros H. unfold grw_Write.
  rewrite (Header_Get_agree (ResHeader c1) (ResHeader c2) HeaderContentType)
    by (apply H; discriminate).
  set (c1' := if String.eqb _ _ then _ else c1).
  set (c2' := if String.eqb _ _ then _ else c2).
  assert (H' : agree_off HeaderVary c1' c2').
  { subst c1' c2'. destruct (String.eqb _ _); [|exact H].
    apply with_header_agree; [exact H|]. apply agree_Set, agree_headers, H. }
  clearbody c1' c2'. pose proof H' as (_ & Hg & _). rewrite Hg.
  destruct (gzw c2') as [z|]; [|split; [reflexivity|exact H']].
  unfold gzip_Write, gzip_step. cbn [fst snd].
  split; [reflexivity|].
  apply (gzip_emit_agree c1' c2'
           {| z_w := z_w z; z_level := z_level z;
              z_enc := fst (enc_write gzip_codec (z_enc z) b) |}), H'.
Qed.

Lemma Response_Write_agree c1 c2 b :
  agree_off HeaderVary c1 c2 ->
  snd (Response_Write c1 b) = snd (Response_Write c2 b)
  /\ agree_off HeaderVary (fst (Response_Write c1 b))
                          (fst (Response_Write c2 b)).
Proof.
  intros H. unfold Response_Write.
  pose proof (Response_WriteHeader_agree c1 c2 StatusOK H) as H1.
  set (c1' := Response_WriteHeader c1 StatusOK) in *.
  set (c2' := Response_WriteHeader c2 StatusOK) in *.
  clearbody c1' c2'.
  assert (H2 : snd (Writer_Write c1' b) = snd (Writer_Write c2' b)
               /\ agree_off HeaderVary (fst (Writer_Write c1' b))
                                       (fst (Writer_Write c2' b))).
  { unfold Writer_Write. pose proof H1 as (_ & _ & HR & _). rewrite HR.
    destruct (Writer (Resp c2')).
    - split; [reflexivity|]. apply sink_Write_agree, H1.
    - apply grw_Write_agree, H1. }
  destruct (Writer_Write c1' b) as [d1 [[n1 e1]|m1]],
           (Writer_Write c2' b) as [d2 [[n2 e2]|m2]];
    cbn [fst snd] in *; destruct H2 as [E H2]; try discriminate E.
  - injection E as -> ->. split; [reflexivity|].
    pose proof H2 as (_ & _ & HR & _). rewrite HR.
    apply with_Resp_agree, H2.
  - split; assumption.
Qed.

Lemma flush_tail_agree d1 d2 :
  agree_off HeaderVary d1 d2 ->
  snd (if s_flusher (sink d1)
       then (with_sink d1 (sink_Flush (sink d1)), Ok tt) else (d1, Ok tt))
  = snd (if s_flusher (sink d2)
         then (with_sink d2 (sink_Flush (sink d2)), Ok tt) else (d2, Ok tt))
  /\ agree_off HeaderVary
       (fst (if s_flusher (sink d1)
             then (with_sink d1 (sink_Flush (sink d1)), Ok tt)
             else (d1, Ok tt)))
       (fst (if s_flusher (sink d2)
             then (with_sink d2 (sink_Flush (sink d2)), Ok tt)
             else (d2, Ok tt))).
Proof.
  intros H. pose proof H as (_ & _ & _ & Hf & _). rewrite Hf.
  destruct (s_flusher (sink d2)); cbn [fst snd];
    (split; [reflexivity|]); [apply sink_Flush_agree|]; exact H.
Qed.

Lemma Response_Flush_agree c1 c2 :
  agree_off HeaderVary c1 c2 ->
  snd (Response_Flush c1) = snd (Response_Flush c2)
  /\ agree_off HeaderVary (fst (Response_Flush c1)) (fst (Response_Flush c2)).
Proof.
  intros H. unfold Response_Flush, grw_Flush.
  pose proof H as (_ & Hg & HR & Hf & _). rewrite HR, Hg.
  destruct (Writer (Resp c2)).
  - rewrite Hf. destruct (s_flusher (sink c2)); cbn [fst snd];
      (split; [reflexivity|]); [apply sink_Flush_agree|]; exact H.
  - destruct (gzw c2) as [z|]; [|split; [reflexivity|exact H]].
    unfold gzip_Flush, gzip_step.
    apply flush_tail_agree.
    apply (gzip_emit_agree c1 c2
             {| z_w := z_w z; z_level := z_level z;
                z_enc := fst (enc_flush gzip_codec (z_enc z)) |}), H.
Qed.

Lemma do_call_agree c1 c2 x :
  agree_off HeaderVary c1 c2 ->
  snd (do_call c1 x) = snd (do_call c2 x)
  /\ agree_off HeaderVary (fst (do_call c1 x)) (fst (do_call c2 x)).
Proof.
  intros H. destruct x as [k v|k v|k|code|b|]; cbn [do_call fst snd].
  - split; [reflexivity|]. apply with_header_agree; [exact H|].
    apply agree_Set, agree_headers, H.
  - split; [reflexivity|]. apply with_header_agree; [exact H|].
    apply agree_Add, agree_headers, H.
  - split; [reflexivity|]. apply with_header_agree; [exact H|].
    apply agree_Del, agree_headers, H.
  - split; [reflexivity|]. apply Response_WriteHeader_agree, H.
  - destruct (Response_Write_agree c1 c2 b H) as [E H'].
    destruct (Response_Write c1 b) as [d1 [r1|m1]],
             (Response_Write c2 b) as [d2 [r2|m2]];
      cbn [fst snd] in *; try discriminate E.
    + split; [reflexivity|exact H'].
    + injection E as ->. split; [reflexivity|exact H'].
  - destruct (Response_Flush_agree c1 c2 H) as [E H'].
    destruct (Response_Flush c1) as [d1 [r1|m1]],
             (Response_Flush c2) as [d2 [r2|m2]];
      cbn [fst snd] in *; try discriminate E.
    + split; [reflexivity|exact H'].
    + injection E as ->. split; [reflexivity|exact H'].
Qed.

Lemma run_calls_agree calls c1 c2 :
  agree_off HeaderVary c1 c2 ->
  snd (run_calls c1 calls) = snd (run_calls c2 calls)
  /\ agree_off HeaderVary (fst (run_calls c1 calls)) (fst (run_calls c2 calls)).
Proof.
  revert c1 c2. induction calls as [|x calls IH]; intros c1 c2 H.
  - split; [reflexivity|exact H].
  - cbn [run_calls]. destruct (do_call_agree c1 c2 x H) as [Hr Hc].
    destruct (do_call c1 x) as [c1' [m1|]], (do_call c2 x) as [c2' [m2|]];
      cbn [fst snd] in *; try discriminate.
    + split; assumption.
    + apply IH, Hc.
Qed.

Lemma varied_agree c : agree_off HeaderVary (varied c) c.
Proof.
  unfold agree_off, varied, with_header, with_sink, ResHeader, sink_with_header,
    sink_body. cbn [Request sink gzw Resp s_header s_log s_flusher s_hijacker].
  repeat split. intros k' Hk. unfold Header_Add.
  by rewrite lookup_insert_ne.
Qed.

(** The middleware's own header changes never touch the Vary values. *)
Ltac header_simpl :=
  unfold gzip_Write, gzip_Flush, gzip_step, emit, with_header, with_Resp, with_gzw, with_sink, ResHeader,
    sink_with_header, sink_Write, sink_WriteHeader, sink_Flush, sink_record;
  cbn [Request sink gzw Resp s_header s_log s_flusher s_hijacker fst snd
       z_w z_level z_enc];
  unfold Header_Set, Header_Del;
  rewrite ?lookup_insert_ne, ?lookup_delete_ne by discriminate.

Lemma grw_WriteHeader_Vary c code :
  ResHeader (grw_WriteHeader c code) !! HeaderVary = ResHeader c !! HeaderVary.
Proof.
  unfold grw_WriteHeader.
  destruct (code =? StatusNoContent); header_simpl; reflexivity.
Qed.

Lemma Response_WriteHeader_Vary c code :
  ResHeader (Response_WriteHeader c code) !! HeaderVary
  = ResHeader c !! HeaderVary.
Proof.
  unfold Response_WriteHeader, Writer_WriteHeader.
  destruct (Committed (Resp c)); [reflexivity|].
  destruct (Writer (Resp c)).
  - reflexivity.
  - apply grw_WriteHeader_Vary.
Qed.

Lemma grw_Write_Vary c b :
  ResHeader (fst (grw_Write c b)) !! HeaderVary = ResHeader c !! HeaderVary.
Proof.
  unfold grw_Write.
  destruct (String.eqb _ _); header_simpl;
    destruct (gzw c) as [[[] lvl e]|]; header_simpl; reflexivity.
Qed.

Lemma Response_Write_Vary c b :
  ResHeader (fst (Response_Write c b)) !! HeaderVary = ResHeader c !! HeaderVary.
Proof.
  unfold Response_Write.
  rewrite <- (Response_WriteHeader_Vary c StatusOK).
  set (c' := Response_WriteHeader c StatusOK). clearbody c'.
  assert (H : ResHeader (fst (Writer_Write c' b)) !! HeaderVary
              = ResHeader c' !! HeaderVary).
  { unfold Writer_Write. destruct (Writer (Resp c')).
    - reflexivity.
    - apply grw_Write_Vary. }
  destruct (Writer_Write c' b) as [d [[n e]|m]]; exact H.
Qed.

Lemma Response_Flush_Vary c :
  ResHeader (fst (Response_Flush c)) !! HeaderVary = ResHeader c !! HeaderVary.
Proof.
  unfold Response_Flush, grw_Flush.
  destruct (Writer (Resp c)).
  - destruct (s_flusher (sink c)); reflexivity.
  - destruct (gzw c) as [[[] lvl e]|]; [| |reflexivity];
      header_simpl; destruct (s_flusher (sink c)); reflexivity.
Qed.

Lemma do_call_leaves_Vary c x :
  leaves_key HeaderVary [x] = true ->
  ResHeader (fst (do_call c x)) !! HeaderVary = ResHeader c !! HeaderVary.
Proof.
  destruct x as [k v|k v|k|code|b|]; cbn [leaves_key forallb do_call]; intros Hk;
    rewrite ?andb_true_r in Hk;
    try (apply negb_true_iff, String.eqb_neq in Hk).
  - header_simpl. by rewrite lookup_insert_ne.
  - header_simpl. unfold Header_Add. by rewrite lookup_insert_ne.
  - header_simpl. by rewrite lookup_delete_ne.
  - apply Response_WriteHeader_Vary.
  - pose proof (Response_Write_Vary c b) as H.
    destruct (Response_Write c b) as [d [r|m]]; exact H.
  - pose proof (Response_Flush_Vary c) as H.
    destruct (Response_Flush c) as [d [r|m]]; exact H.
Qed.

Lemma run_calls_leaves_Vary calls c :
  leaves_key HeaderVary calls = true ->
  ResHeader (fst (run_calls c calls)) !! HeaderVary = ResHeader c !! HeaderVary.
Proof.
  revert c. induction calls as [|x calls IH]; intros c Hk; [reflexivity|].
  cbn [leaves_key forallb] in Hk. apply andb_true_iff in Hk as [Hx Hk].
  cbn [run_calls]. pose proof (do_call_leaves_Vary c x) as Hd.
  cbn [leaves_key forallb] in Hd. rewrite Hx in Hd. specialize (Hd eq_refl).
  destruct (do_call c x) as [c' [m|]]; cbn [fst] in *; [exact Hd|].
  rewrite IH by exact Hk. exact Hd.
Qed.

End Frame.

(** ** Status writes under the gzip announcement *)

Section Announcement.
Context {I : Imports}.
Implicit Types (c : Ctx) (calls : list Call).

Ltac open_ctx c :=
  destruct c as [?req [?h ?l ?f ?j] ?g [?wr ?st ?sz ?cm]].



Lemma grw_WriteHeader_Resp c code : Resp (grw_WriteHeader c code) = Resp c.
Proof.
  open_ctx c. unfold grw_WriteHeader.
  destruct (code =? StatusNoContent); reflexivity.
Qed.

Lemma Response_WriteHeader_Writer c code :
  Writer (Resp (Response_WriteHeader c code)) = Writer (Resp c).
Proof.
  unfold Response_WriteHeader.
  destruct (Committed (Resp c)); [reflexivity|].
  cbn [with_Resp Resp Writer]. unfold Writer_WriteHeader.
  destruct (Writer (Resp c)) eqn:E.
  - cbn [with_sink Resp]. exact E.
  - rewrite grw_WriteHeader_Resp. exact E.
Qed.






End Announcement.

(** ** The middleware *)

Section Claims.
Context {I : Imports}.
Implicit Types (c : Ctx) (next : HandlerFunc) (options : list Option_)
  (calls : list Call).

(** C7. When the skip predicate holds for a request, the middleware is
    [next] itself: it hands over the context it was given, with no header
    touched and no decorator installed, and returns what [next] returns,
    whatever the request's Accept-Encoding says. *)
Theorem C7_skipper_bypasses options c next :
  skipped options c = true ->
  New options c next = next c.
Proof. apply New_skip. Qed.

(** C6. When building the compressor fails for the configured level, the
    middleware returns that very error; the outcome is the same for every
    [next], which is never run. *)
Theorem C6_construction_failure_aborts options c next err :
  skipped options c = false ->
  accepts_gzip c = true ->
  gzip_NewWriterLevel ToRW (level_of options) = inr err ->
  New options c next = (announced c, Return (Some err))
  /\ forall next', New options c next' = New options c next.
Proof.
  intros Hs Ha Hc. unfold gzip_NewWriterLevel in Hc.
  destruct (invalid_level (level_of options)) eqn:Hl; [|discriminate].
  injection Hc as <-.
  split; [|intros next']; rewrite !New_invalid by assumption; reflexivity.
Qed.

(** C10. On that error path the headers changed before the failure stay
    changed: the response still says [Content-Encoding: gzip] and its
    [Vary] values end with [Accept-Encoding]. *)
Theorem C10_headers_not_reverted options c next :
  skipped options c = false ->
  accepts_gzip c = true ->
  invalid_level (level_of options) = true ->
  snd (New options c next)
  = Return (Some (gzip_invalid_level (level_of options)))
  /\ ResHeader (fst (New options c next)) !! HeaderContentEncoding
     = Some [gzipScheme]
  /\ Header_Get (ResHeader (fst (New options c next))) HeaderContentEncoding
     = gzipScheme
  /\ ResHeader (fst (New options c next)) !! HeaderVary
     = Some (default [] (ResHeader c !! HeaderVary) ++ [HeaderAcceptEncoding]).
Proof.
  intros Hs Ha Hl. rewrite New_invalid by assumption. cbn [fst snd].
  unfold announced, varied, with_header, with_sink, ResHeader, sink_with_header.
  cbn [sink s_header].
  split; [reflexivity|]. split; [|split].
  - unfold Header_Set. apply lookup_insert_eq.
  - apply Header_Get_Set.
  - unfold Header_Set. rewrite lookup_insert_ne by discriminate.
    apply Header_Add_lookup.
Qed.

(** C8. [WriteHeader(code)] on the decorator: for code 204 the
    Content-Encoding header is deleted, for every code the Content-Length
    header is deleted, and the status write is then passed to the sink,
    which sees the headers with those deletions done.  Nothing else
    changes. *)
Theorem C8_WriteHeader_strips_then_delegates c code :
  ResHeader (grw_WriteHeader c code)
  = Header_Del
      (if code =? StatusNoContent
       then Header_Del (ResHeader c) HeaderContentEncoding
       else ResHeader c)
      HeaderContentLength
  /\ ResHeader (grw_WriteHeader c code) !! HeaderContentLength = None
  /\ ResHeader (grw_WriteHeader c code) !! HeaderContentEncoding
     = (if code =? StatusNoContent then None
        else ResHeader c !! HeaderContentEncoding)
  /\ s_log (sink (grw_WriteHeader c code))
     = s_log (sink c)
       ++ [EvWriteHeader code (ResHeader (grw_WriteHeader c code))]
  /\ Resp (grw_WriteHeader c code) = Resp c
  /\ gzw (grw_WriteHeader c code) = gzw c.
Proof.
  unfold grw_WriteHeader, with_header, with_sink, ResHeader, sink_with_header,
    sink_WriteHeader, sink_record, Header_Del.
  destruct (code =? StatusNoContent); cbn [sink s_header s_log Resp gzw];
    repeat split;
    rewrite ?lookup_delete_eq, ?lookup_delete_ne by discriminate;
    rewrite ?lookup_delete_eq; reflexivity.
Qed.

(** [Hijack] on a sink that can be hijacked: the call is passed on and the
    sink's connection and buffered reader-writer come back. *)
Lemma grw_Hijack_delegates c r :
  s_hijacker (sink c) = Some r ->
  grw_Hijack c = (with_sink c (sink_record (sink c) EvHijack), Ok r).
Proof. unfold grw_Hijack. intros ->. reflexivity. Qed.

(** C4. For a request that does not ask for gzip (and is not skipped) the
    middleware is [next] run on the response whose Vary values gained
    [Accept-Encoding]; nothing else differs.  For a handler given by its
    calls this means: same outcome, same response state, same body bytes
    and same header values under every key but Vary as when the handler
    runs on its own; and when the handler makes no header call on Vary, the
    Vary values are those of the handler run on its own followed by
    [Accept-Encoding]. *)
Theorem C4_without_gzip_only_Vary_changes options c calls ret :
  skipped options c = false ->
  accepts_gzip c = false ->
  (forall next, New options c next = next (varied c))
  /\ ResHeader (varied c) !! HeaderVary
     = Some (default [] (ResHeader c !! HeaderVary) ++ [HeaderAcceptEncoding])
  /\ agree_off HeaderVary (varied c) c
  /\ snd (New options c (handler calls ret)) = snd (handler calls ret c)
  /\ Resp (fst (New options c (handler calls ret)))
     = Resp (fst (handler calls ret c))
  /\ sink_body (sink (fst (New options c (handler calls ret))))
     = sink_body (sink (fst (handler calls ret c)))
  /\ (forall k, k <> HeaderVary ->
      ResHeader (fst (New options c (handler calls ret))) !! k
      = ResHeader (fst (handler calls ret c)) !! k)
  /\ (leaves_key HeaderVary calls = true ->
      ResHeader (fst (New options c (handler calls ret))) !! HeaderVary
      = Some (default [] (ResHeader (fst (handler calls ret c)) !! HeaderVary)
              ++ [HeaderAcceptEncoding])).
Proof.
  intros Hs Ha.
  split; [intros next; apply New_plain; assumption|].
  split; [apply Header_Add_lookup|].
  split; [apply varied_agree|].
  rewrite New_plain by assumption. unfold handler.
  destruct (run_calls_agree calls (varied c) c (varied_agree c)) as [Hr Hag].
  pose proof (run_calls_leaves_Vary calls (varied c)) as Hv1.
  pose proof (run_calls_leaves_Vary calls c) as Hv2.
  destruct (run_calls (varied c) calls) as [c1 [m1|]],
           (run_calls c calls) as [c2 [m2|]];
    cbn [fst snd] in *; try discriminate;
    destruct Hag as (_ & _ & HR & _ & _ & Hb & Hh);
    repeat split; try congruence; try assumption;
    intros Hk; rewrite Hv1, Hv2 by exact Hk;
    apply Header_Add_lookup.
Qed.

(** Whenever the chain runs, an error returned by [next] is returned
    unchanged by the middleware.  On the gzip path the clean-up has run by
    then; when the byte counter is zero the header map no longer says
    [Content-Encoding: gzip]: the entry is deleted when its value is gzip
    and left as the handler set it otherwise.  (This is about the header
    map after the middleware returned, not about status writes the sink
    received before.) *)
Lemma error_returned_after_cleanup options c next c' e :
  chain_runs options c = true ->
  next (handed options c) = (c', Return (Some e)) ->
  snd (New options c next) = Return (Some e)
  /\ (skipped options c = false -> accepts_gzip c = true ->
      fst (New options c next) = finalizer (Writer (Resp c)) c'
      /\ (Size (Resp c') = 0 ->
          Header_Get (ResHeader (fst (New options c next)))
            HeaderContentEncoding <> gzipScheme
          /\ ResHeader (fst (New options c next))
             = (if String.eqb (Header_Get (ResHeader c') HeaderContentEncoding)
                              gzipScheme
                then Header_Del (ResHeader c') HeaderContentEncoding
                else ResHeader c'))).
Proof.
  intros Hrun Hnext.
  split; [rewrite New_handed, Hnext by assumption; reflexivity|].
  intros Hs Ha. unfold chain_runs in Hrun. unfold handed in Hnext.
  rewrite Hs, Ha in *. cbn in Hrun. apply negb_true_iff in Hrun.
  rewrite New_gzip, Hnext by assumption. cbn [fst].
  split; [reflexivity|]. intros Hz.
  destruct (finalizer_reverts (Writer (Resp c)) c' Hz) as (H1 & H2 & _).
  split; assumption.
Qed.

(** On the gzip path, when the byte counter is zero after [next]
    (whatever [next] returned), the header map ends up without a gzip
    announcement (the entry is deleted when its value is gzip, and
    otherwise left as the handler set it), the entry writer is reinstalled
    and the compressor is pointed at the discard sink before it is closed,
    so that the clean-up itself sends nothing to the sink.  When the
    handler made neither a write nor a flush call, the body is as it was on
    entry.  (What the sink received before the clean-up stays as it is.) *)
Lemma nothing_counted_reverts options c next :
  skipped options c = false ->
  accepts_gzip c = true ->
  invalid_level (level_of options) = false ->
  Size (Resp (fst (next (activated (level_of options) c)))) = 0 ->
  snd (New options c next) = snd (next (activated (level_of options) c))
  /\ Header_Get (ResHeader (fst (New options c next))) HeaderContentEncoding
     <> gzipScheme
  /\ ResHeader (fst (New options c next))
     = (let h := ResHeader (fst (next (activated (level_of options) c))) in
        if String.eqb (Header_Get h HeaderContentEncoding) gzipScheme
        then Header_Del h HeaderContentEncoding else h)
  /\ Writer (Resp (fst (New options c next))) = Writer (Resp c)
  /\ s_log (sink (fst (New options c next)))
     = s_log (sink (fst (next (activated (level_of options) c))))
  /\ (forall z, gzw (fst (New options c next)) = Some z -> z_w z = ToDiscard)
  /\ (forall calls ret,
      next = handler calls ret -> silent calls = true ->
      sink_body (sink (fst (New options c next))) = sink_body (sink c)).
Proof.
  intros Hs Ha Hl Hz. rewrite New_gzip by assumption. cbn [fst snd].
  destruct (finalizer_reverts (Writer (Resp c)) _ Hz) as (H1 & H2 & H3 & H4 & H5).
  repeat split; try assumption.
  intros calls ret -> Hsil. unfold sink_body. rewrite H4.
  apply silent_body, Hsil.
Qed.



End Claims.

(** ** The properties on concrete requests *)

(** C3, on the recorder, which cannot be hijacked: [Hijack] on the
    decorator panics on the failed type assertion; no error is returned. *)
Theorem C3_Hijack_panics_on_recorder :
  snd (grw_Hijack (activated (-1) Scenario.fresh))
  = Panicked "interface conversion: http.ResponseWriter is not http.Hijacker: missing method Hijack".
Proof. reflexivity. Qed.

Lemma C7_witness :
  New [Skipper (fun _ => true)] Scenario.fresh Scenario.write_test
  = Scenario.write_test Scenario.fresh.
Proof.
  apply (C7_skipper_bypasses [Skipper (fun _ => true)] Scenario.fresh
           Scenario.write_test).
  reflexivity.
Defined.

Lemma C6_witness :
  New [Level 10] Scenario.fresh Scenario.write_test
  = (announced Scenario.fresh, Return (Some (gzip_invalid_level 10)))
  /\ forall next',
       New [Level 10] Scenario.fresh next'
       = New [Level 10] Scenario.fresh Scenario.write_test.
Proof.
  apply (C6_construction_failure_aborts [Level 10] Scenario.fresh
           Scenario.write_test (gzip_invalid_level 10));
    reflexivity.
Defined.

Lemma C10_witness :
  snd (New [Level (-3)] Scenario.fresh Scenario.write_test)
  = Return (Some (gzip_invalid_level (-3)))
  /\ ResHeader (fst (New [Level (-3)] Scenario.fresh Scenario.write_test))
     !! HeaderContentEncoding = Some [gzipScheme]
  /\ Header_Get (ResHeader (fst (New [Level (-3)] Scenario.fresh
                                   Scenario.write_test)))
       HeaderContentEncoding = gzipScheme
  /\ ResHeader (fst (New [Level (-3)] Scenario.fresh Scenario.write_test))
     !! HeaderVary
     = Some (default [] (ResHeader Scenario.fresh !! HeaderVary)
             ++ [HeaderAcceptEncoding]).
Proof.
  apply (C10_headers_not_reverted [Level (-3)] Scenario.fresh
           Scenario.write_test);
    reflexivity.
Defined.

Lemma C4_witness :
  snd (New [] Scenario.fresh_plain Scenario.write_test) = Return None
  /\ sink_body (sink (fst (New [] Scenario.fresh_plain Scenario.write_test)))
     = Scenario.test_bytes
  /\ ResHeader (fst (New [] Scenario.fresh_plain Scenario.write_test))
     !! HeaderVary = Some [HeaderAcceptEncoding].
Proof.
  destruct (C4_without_gzip_only_Vary_changes [] Scenario.fresh_plain
              [CallWrite Scenario.test_bytes] None eq_refl eq_refl)
    as (_ & _ & _ & Hr & _ & Hb & _ & Hv).
  split; [exact Hr|]. split; [exact Hb|]. exact (Hv eq_refl).
Defined.



(** C2 fails on the code.  On the recorder, with default options and a
    request asking for gzip, take three handlers that write no byte to the
    body; for each the byte counter ends at zero, and the clean-up removes
    Content-Encoding from the header map and reinstalls the recorder.  A
    handler that only flushes, and one that writes an empty slice, leave
    the gzip header in the body (fifteen and ten bytes), where the same
    handlers without the middleware leave the body empty.  A handler that
    only writes status 200 has its status reach the sink with
    [Content-Encoding: gzip]; the entry is removed from the map only
    afterwards. *)
Theorem C2_zero_bytes_not_pristine :
  (Size (Resp (fst (New [] Scenario.fresh Scenario.flush_only))) = 0
   /\ ResHeader (fst (New [] Scenario.fresh Scenario.flush_only))
      !! HeaderContentEncoding = None
   /\ Writer (Resp (fst (New [] Scenario.fresh Scenario.flush_only))) = Original
   /\ sink_body (sink (fst (New [] Scenario.fresh Scenario.flush_only)))
      = [Byte.x1f; Byte.x8b; Byte.x08; Byte.x00; Byte.x00; Byte.x00; Byte.x00;
         Byte.x00; Byte.x00; Byte.xff;
         Byte.x00; Byte.x00; Byte.x00; Byte.xff; Byte.xff]
   /\ sink_body (sink (fst (Scenario.flush_only Scenario.fresh))) = [])
  /\ (Size (Resp (fst (New [] Scenario.fresh Scenario.write_nothing))) = 0
      /\ ResHeader (fst (New [] Scenario.fresh Scenario.write_nothing))
         !! HeaderContentEncoding = None
      /\ Writer (Resp (fst (New [] Scenario.fresh Scenario.write_nothing)))
         = Original
      /\ sink_body (sink (fst (New [] Scenario.fresh Scenario.write_nothing)))
         = [Byte.x1f; Byte.x8b; Byte.x08; Byte.x00; Byte.x00; Byte.x00;
            Byte.x00; Byte.x00; Byte.x00; Byte.xff]
      /\ sink_body (sink (fst (Scenario.write_nothing Scenario.fresh))) = [])
  /\ (Size (Resp (fst (New [] Scenario.fresh Scenario.status_only))) = 0
      /\ ResHeader (fst (New [] Scenario.fresh Scenario.status_only))
         !! HeaderContentEncoding = None
      /\ Writer (Resp (fst (New [] Scenario.fresh Scenario.status_only)))
         = Original
      /\ s_log (sink (fst (New [] Scenario.fresh Scenario.status_only)))
         = [EvWriteHeader StatusOK
              {[ HeaderContentEncoding := [gzipScheme];
                 HeaderVary := [HeaderAcceptEncoding] ]}]
      /\ s_log (sink (fst (Scenario.status_only Scenario.fresh)))
         = [EvWriteHeader StatusOK ∅]).
Proof. repeat split. Qed.

(** C5 fails on the code.  On the recorder, with default options and a
    request asking for gzip, a handler writes status 404 and returns an
    error.  The error comes back unchanged, no byte was counted and the
    body is empty, and after the clean-up the header map has no
    Content-Encoding; but the status had reached the sink before, and it
    went out with [Content-Encoding: gzip]. *)
Theorem C5_error_status_sent_as_gzip :
  snd (New [] Scenario.fresh Scenario.fail_not_found)
  = Return (Some Scenario.not_found)
  /\ Size (Resp (fst (New [] Scenario.fresh Scenario.fail_not_found))) = 0
  /\ sink_body (sink (fst (New [] Scenario.fresh Scenario.fail_not_found))) = []
  /\ ResHeader (fst (New [] Scenario.fresh Scenario.fail_not_found))
     !! HeaderContentEncoding = None
  /\ s_log (sink (fst (New [] Scenario.fresh Scenario.fail_not_found)))
     = [EvWriteHeader 404
          {[ HeaderContentEncoding := [gzipScheme];
             HeaderVary := [HeaderAcceptEncoding] ]}].
Proof. repeat split. Qed.


(** The streaming handler of [TestGzip]: write, flush, write, flush,
    write.  After each flush the reader has every line written so far, and
    the closed stream decodes to the three writes. *)
Example streaming_scenario :
  let line := CallWrite Scenario.test_line in
  let c1 := fst (run_calls (activated (-1) Scenario.fresh) [line; CallFlush]) in
  let c2 := fst (run_calls c1 [line; CallFlush]) in
  let c3 := fst (New [] Scenario.fresh
                   (handler [line; CallFlush; line; CallFlush;
                             CallWrite Scenario.test_bytes] None)) in
  gunzip_avail gzip_codec (sink_body (sink c1)) = Scenario.test_line
  /\ gunzip_avail gzip_codec (sink_body (sink c2))
     = Scenario.test_line ++ Scenario.test_line
  /\ gunzip gzip_codec (sink_body (sink c3))
     = Some (Scenario.test_line ++ Scenario.test_line ++ Scenario.test_bytes).
Proof. repeat split. Qed.

(** On a sink that can be hijacked but not flushed: [Hijack] hands over
    the sink's connection, and [Flush] still returns normally. *)
Example raw_conn_scenario :
  let c := activated (-1) (NewContext Scenario.gzip_request Scenario.raw_conn) in
  snd (grw_Hijack c) = Ok {| hj_conn := 1; hj_bufrw := 2; hj_err := None |}
  /\ snd (grw_Flush c) = Ok tt.
Proof. repeat split. Qed.

(** * Further properties of the package *)

(** ** Options *)

Section OptionFacts.
Context {I : Imports}.
Implicit Types (c : Ctx) (next : HandlerFunc) (options : list Option_).

Lemma apply_options_snoc options (opt : Option_) :
  apply_options (options ++ [opt]) = opt (apply_options options).
Proof. unfold apply_options. rewrite fold_left_app. reflexivity. Qed.

(** X1. Options are applied in the order given, each on top of what the
    earlier ones produced: a [Level] option put last decides the level
    and leaves the skip predicate alone, a [Skipper] option put last
    decides the skip predicate and leaves the level alone. *)
Theorem X1_options_apply_in_order options level skipper c :
  level_of (options ++ [Level level]) = level
  /\ skipped (options ++ [Level level]) c = skipped options c
  /\ skipped (options ++ [Skipper skipper]) c = skipper c
  /\ level_of (options ++ [Skipper skipper]) = level_of options.
Proof.
  unfold level_of, skipped. rewrite !apply_options_snoc.
  repeat split.
Qed.

Lemma Skippers_keep_level (skippers : list (Ctx -> bool)) o :
  Options_Level
    (fold_left (fun opts (opt : Option_) => opt opts) (map Skipper skippers) o)
  = Options_Level o.
Proof.
  revert o. induction skippers as [|s skippers IH]; intros o; [reflexivity|].
  cbn [map fold_left]. rewrite IH. reflexivity.
Qed.

(** X2. A middleware built without any [Level] option (from [Skipper]
    options only, or from none) works at level -1, which the compressor
    accepts: it never returns a construction error, so [next] is run on
    every request and its outcome is the middleware's. *)
Theorem X2_default_level_always_builds (skippers : list (Ctx -> bool)) c next :
  level_of (map Skipper skippers) = -1
  /\ snd (New (map Skipper skippers) c next)
     = snd (next (handed (map Skipper skippers) c)).
Proof.
  assert (Hl : level_of (map Skipper skippers) = -1).
  { unfold level_of, apply_options. apply Skippers_keep_level. }
  split; [exact Hl|].
  apply New_handed. unfold chain_runs. rewrite Hl.
  change (invalid_level (-1)) with false. cbn [negb]. apply orb_true_r.
Qed.

(** X3. The outcome of the middleware is independent of [next], which is
    then not run, exactly when the request is not skipped, asks for gzip,
    and the configured level lies outside -2..9.  In particular a bad
    level goes unnoticed on skipped requests and on requests that do not
    ask for gzip. *)
Theorem X3_next_not_run_iff_bad_level_on_gzip_request options c :
  (forall next next', New options c next = New options c next')
  <-> skipped options c = false
      /\ accepts_gzip c = true
      /\ (level_of options < -2 \/ 9 < level_of options).
Proof.
  assert (Hinv : invalid_level (level_of options) = true
                 <-> level_of options < -2 \/ 9 < level_of options).
  { unfold invalid_level, HuffmanOnly, BestCompression.
    rewrite orb_true_iff, Z.ltb_lt, Z.gtb_gt. lia. }
  split.
  - intros Hind.
    destruct (chain_runs options c) eqn:Hrun.
    + pose proof (New_handed options c (fun x => (x, Return None)) Hrun) as H1.
      pose proof (New_handed options c (fun x => (x, Panic EmptyString)) Hrun)
        as H2.
      rewrite (Hind _ (fun x => (x, Panic EmptyString))) in H1.
      rewrite H1 in H2. discriminate H2.
    + unfold chain_runs in Hrun.
      apply orb_false_iff in Hrun as [Hrun Hl].
      apply orb_false_iff in Hrun as [Hs Ha].
      apply negb_false_iff in Ha, Hl.
      repeat split; try assumption. apply Hinv, Hl.
  - intros (Hs & Ha & Hl) next next'. apply Hinv in Hl.
    rewrite !New_invalid by assumption. reflexivity.
Qed.

End OptionFacts.

(** ** Negotiation *)

Lemma prefix_iff_append (p s : string) :
  String.prefix p s = true <-> exists q, s = p +:+ q.
Proof.
  revert s. induction p as [|a p IH]; intros s.
  - split; [intros _; exists s; reflexivity | intros _; destruct s; reflexivity].
  - destruct s as [|b s]; cbn [String.prefix].
    + split; [discriminate | intros [q Hq]; discriminate Hq].
    + destruct (ascii_dec a b) as [->|Hne].
      * rewrite IH. split; intros [q Hq]; exists q.
        -- rewrite Hq. reflexivity.
        -- change (String b p +:+ q) with (String b (p +:+ q)) in Hq.
           injection Hq as Hq. exact Hq.
      * split; [discriminate|]. intros [q Hq].
        change (String a p +:+ q) with (String a (p +:+ q)) in Hq.
        injection Hq as Hab _. congruence.
Qed.

Lemma strings_Contains_iff (s substr : string) :
  strings_Contains s substr = true <-> exists p q, s = p +:+ substr +:+ q.
Proof.
  induction s as [|a s IH]; cbn [strings_Contains].
  - rewrite orb_false_r, prefix_iff_append. split.
    + intros [q Hq]. exists EmptyString, q. exact Hq.
    + intros (p & q & Hpq). destruct p as [|b p]; [|discriminate Hpq].
      exists q. exact Hpq.
  - rewrite orb_true_iff, prefix_iff_append, IH. split.
    + intros [[q Hq]|(p & q & Hpq)].
      * exists EmptyString, q. exact Hq.
      * exists (String a p), q. rewrite Hpq. reflexivity.
    + intros (p & q & Hpq). destruct p as [|b p].
      * left. exists q. exact Hpq.
      * right. exists p, q.
        change (String b p +:+ substr +:+ q)
          with (String b (p +:+ substr +:+ q)) in Hpq.
        injection Hpq as _ Hpq. exact Hpq.
Qed.

Section Negotiation.
Context {I : Imports}.
Implicit Types (c : Ctx).

(** X4. Compression is switched on by a plain substring test on the first
    Accept-Encoding value of the request: it applies exactly when that
    value reads [p ++ gzip ++ q] for some [p] and [q].  Further values of
    the header, letter case and quality parameters play no part. *)
Theorem X4_activation_is_substring_of_first_value c :
  accepts_gzip c = true
  <-> exists v vs p q,
        Request c !! HeaderAcceptEncoding = Some (v :: vs)
        /\ v = p +:+ gzipScheme +:+ q.
Proof.
  unfold accepts_gzip. rewrite strings_Contains_iff. unfold Header_Get.
  destruct (Request c !! HeaderAcceptEncoding) as [[|v vs]|].
  - split.
    + intros (p & q & H). destruct p; discriminate H.
    + intros (v & vs & p & q & H & _). discriminate H.
  - split.
    + intros (p & q & H). exists v, vs, p, q. split; [reflexivity|exact H].
    + intros (v' & vs' & p & q & [= <- <-] & H). exists p, q. exact H.
  - split.
    + intros (p & q & H). destruct p; discriminate H.
    + intros (v & vs & p & q & H & _). discriminate H.
Qed.

End Negotiation.

(** ** What the decorator does to headers and to the sink's log *)

Section DecoratorEffects.
Context {I : Imports}.
Implicit Types (c : Ctx) (z : GzipWriter) (calls : list Call).

Ltac open_ctx c :=
  destruct c as [?req [?h ?l ?f ?j] ?g [?wr ?st ?sz ?cm]].

Ltac effects_simpl :=
  unfold gzip_Write, gzip_Flush, gzip_Close, gzip_Reset, gzip_step, emit,
    with_header, with_Writer, with_Resp, with_gzw, with_sink, ResHeader,
    sink_with_header, sink_Write, sink_WriteHeader, sink_Flush, sink_record;
  cbn [Request sink gzw Resp Writer Status Size Committed option_map
       s_header s_log s_flusher s_hijacker fst snd z_w z_level z_enc].

Lemma extends_cleanly_refl c : extends_cleanly c c.
Proof. exists []. rewrite app_nil_r. split; [reflexivity|constructor]. Qed.

Lemma extends_cleanly_trans c1 c2 c3 :
  extends_cleanly c1 c2 -> extends_cleanly c2 c3 -> extends_cleanly c1 c3.
Proof.
  intros (l1 & E1 & F1) (l2 & E2 & F2). exists (l1 ++ l2).
  rewrite E2, E1, app_assoc. split; [reflexivity|].
  apply Forall_app; split; assumption.
Qed.

Lemma extends_cleanly_event c c' e :
  s_log (sink c') = s_log (sink c) ++ [e] -> clean_event e ->
  extends_cleanly c c'.
Proof. intros E H. exists [e]. split; [exact E|]. repeat constructor. exact H. Qed.

Lemma extends_cleanly_same c c' :
  s_log (sink c') = s_log (sink c) -> extends_cleanly c c'.
Proof.
  intros E. exists []. rewrite app_nil_r. split; [exact E|constructor].
Qed.

(** [WriteHeader] on the decorator. *)
Lemma grw_WriteHeader_clean c code :
  extends_cleanly c (grw_WriteHeader c code).
Proof.
  open_ctx c. unfold grw_WriteHeader.
  destruct (Z.eqb_spec code StatusNoContent) as [->|Hne]; effects_simpl;
    (eapply extends_cleanly_event; [effects_simpl; reflexivity|]);
    cbn [clean_event]; unfold Header_Del;
    (split; [apply lookup_delete_eq|]); intros Hc.
  - rewrite lookup_delete_ne by discriminate. apply lookup_delete_eq.
  - contradiction.
Qed.

Lemma grw_WriteHeader_other c code k :
  k <> HeaderContentEncoding -> k <> HeaderContentLength ->
  ResHeader (grw_WriteHeader c code) !! k = ResHeader c !! k.
Proof.
  intros H1 H2. open_ctx c. unfold grw_WriteHeader.
  destruct (code =? StatusNoContent); effects_simpl; unfold Header_Del;
    by rewrite ?lookup_delete_ne.
Qed.

(** [r.WriteHeader] with the decorator installed. *)
Lemma Response_WriteHeader_clean c code :
  Writer (Resp c) = Decorated ->
  extends_cleanly c (Response_WriteHeader c code).
Proof.
  intros HW. unfold Response_WriteHeader, Writer_WriteHeader. rewrite HW.
  destruct (Committed (Resp c)); [apply extends_cleanly_refl|].
  destruct (grw_WriteHeader_clean c code) as (l & E & F).
  exists l. split; [exact E|exact F].
Qed.

Lemma Response_WriteHeader_other c code k :
  Writer (Resp c) = Decorated ->
  k <> HeaderContentEncoding -> k <> HeaderContentLength ->
  ResHeader (Response_WriteHeader c code) !! k = ResHeader c !! k.
Proof.
  intros HW H1 H2. unfold Response_WriteHeader, Writer_WriteHeader. rewrite HW.
  destruct (Committed (Resp c)); [reflexivity|].
  apply grw_WriteHeader_other; assumption.
Qed.

(** [Write] on the decorator. *)
Lemma grw_Write_clean c b : extends_cleanly c (fst (grw_Write c b)).
Proof.
  open_ctx c. unfold grw_Write.
  destruct (String.eqb _ _); effects_simpl;
    destruct g as [[[] lvl e]|]; effects_simpl;
    first [ apply extends_cleanly_same; reflexivity
          | eapply extends_cleanly_event; [reflexivity|constructor] ].
Qed.

Lemma grw_Write_header c b :
  ResHeader (fst (grw_Write c b))
  = (if String.eqb (Header_Get (ResHeader c) HeaderContentType) EmptyString
     then Header_Set (ResHeader c) HeaderContentType (DetectContentType b)
     else ResHeader c).
Proof.
  open_ctx c. unfold grw_Write. effects_simpl.
  destruct (String.eqb _ _); effects_simpl;
    destruct g as [[[] lvl e]|]; reflexivity.
Qed.

(** [Flush] on the decorator. *)
Lemma grw_Flush_clean c : extends_cleanly c (fst (grw_Flush c)).
Proof.
  open_ctx c. unfold grw_Flush. effects_simpl.
  destruct g as [[[] lvl e]|]; effects_simpl; destruct f; effects_simpl;
    try (apply extends_cleanly_same; reflexivity).
  - exists [EvWrite (snd (enc_flush gzip_codec e)); EvFlush].
    split; [cbn; by rewrite <- app_assoc|]. repeat constructor.
  - eapply extends_cleanly_event; [reflexivity|constructor].
  - eapply extends_cleanly_event; [reflexivity|constructor].
Qed.

Lemma grw_Flush_header c : ResHeader (fst (grw_Flush c)) = ResHeader c.
Proof.
  open_ctx c. unfold grw_Flush. effects_simpl.
  destruct g as [[[] lvl e]|]; effects_simpl; destruct f; reflexivity.
Qed.

(** [r.Write] and [r.Flush] with the decorator installed. *)
Lemma Response_Write_fst c b :
  Writer (Resp c) = Decorated ->
  sink (fst (Response_Write c b))
  = sink (fst (grw_Write (Response_WriteHeader c StatusOK) b)).
Proof.
  intros HW. unfold Response_Write, Writer_Write.
  rewrite Response_WriteHeader_Writer, HW.
  destruct (grw_Write _ b) as [d [[n e]|m]]; reflexivity.
Qed.

Lemma Response_Write_clean c b :
  Writer (Resp c) = Decorated ->
  extends_cleanly c (fst (Response_Write c b)).
Proof.
  intros HW.
  pose proof (extends_cleanly_trans _ _ _
                (Response_WriteHeader_clean c StatusOK HW)
                (grw_Write_clean (Response_WriteHeader c StatusOK) b))
    as (l & E & F).
  exists l. rewrite Response_Write_fst by exact HW. split; assumption.
Qed.

Lemma do_call_clean c x :
  Writer (Resp c) = Decorated -> extends_cleanly c (fst (do_call c x)).
Proof.
  intros HW. destruct x as [k v|k v|k|code|b|]; cbn [do_call fst].
  1-3: apply extends_cleanly_same; reflexivity.
  - apply Response_WriteHeader_clean, HW.
  - pose proof (Response_Write_clean c b HW) as H.
    destruct (Response_Write c b) as [d [r|m]]; exact H.
  - pose proof (grw_Flush_clean c) as H. unfold Response_Flush. rewrite HW.
    destruct (grw_Flush c) as [d [r|m]]; exact H.
Qed.

Lemma Header_Get_lookup (h1 h2 : Header) k :
  h1 !! k = h2 !! k -> Header_Get h1 k = Header_Get h2 k.
Proof. unfold Header_Get. intros ->. reflexivity. Qed.

(** The Content-Type value after one call. *)
Lemma do_call_type c x :
  Writer (Resp c) = Decorated ->
  leaves_key HeaderContentType [x] = true ->
  Header_Get (ResHeader (fst (do_call c x))) HeaderContentType
  = sniffed (Header_Get (ResHeader c) HeaderContentType) [x].
Proof.
  intros HW Hk.
  assert (Hsame : forall t, (if String.eqb t EmptyString then EmptyString else t) = t).
  { intros t. destruct (String.eqb_spec t EmptyString); congruence. }
  destruct x as [k v|k v|k|code|b|];
    cbn [leaves_key forallb] in Hk; rewrite ?andb_true_r in Hk;
    try (apply negb_true_iff, String.eqb_neq in Hk);
    unfold sniffed; cbn [first_write do_call fst]; rewrite ?Hsame.
  - apply Header_Get_lookup. unfold with_header, with_sink, ResHeader,
      sink_with_header, Header_Set. cbn [sink s_header].
    by rewrite lookup_insert_ne.
  - apply Header_Get_lookup. unfold with_header, with_sink, ResHeader,
      sink_with_header, Header_Add. cbn [sink s_header].
    by rewrite lookup_insert_ne.
  - apply Header_Get_lookup. unfold with_header, with_sink, ResHeader,
      sink_with_header, Header_Del. cbn [sink s_header].
    by rewrite lookup_delete_ne.
  - apply Header_Get_lookup, Response_WriteHeader_other;
      [exact HW|discriminate|discriminate].
  - assert (E : ResHeader (fst (Response_Write c b))
                = ResHeader (fst (grw_Write (Response_WriteHeader c StatusOK) b))).
    { unfold ResHeader. rewrite Response_Write_fst by exact HW. reflexivity. }
    replace (fst (let (c', r) := Response_Write c b in
                  match r with Ok _ => (c', None) | Panicked msg => (c', Some msg) end))
      with (fst (Response_Write c b))
      by (destruct (Response_Write c b) as [d [r|m]]; reflexivity).
    rewrite E, grw_Write_header.
    rewrite (Header_Get_lookup
               (ResHeader (Response_WriteHeader c StatusOK)) (ResHeader c)
               HeaderContentType)
      by (apply Response_WriteHeader_other;
          [exact HW|discriminate|discriminate]).
    destruct (String.eqb _ _); [apply Header_Get_Set|].
    apply Header_Get_lookup, Response_WriteHeader_other;
      [exact HW|discriminate|discriminate].
  - unfold Response_Flush. rewrite HW.
    replace (fst (let (c', r) := grw_Flush c in
                  match r with Ok _ => (c', None) | Panicked msg => (c', Some msg) end))
      with (fst (grw_Flush c))
      by (destruct (grw_Flush c) as [d [r|m]]; reflexivity).
    rewrite grw_Flush_header. reflexivity.
Qed.

Lemma sniffed_cons t x calls :
  (forall b, DetectContentType b <> EmptyString) ->
  sniffed (sniffed t [x]) calls = sniffed t (x :: calls).
Proof.
  intros Hd. unfold sniffed.
  destruct (String.eqb_spec t EmptyString) as [->|Hne].
  - destruct x; cbn [first_write]; try reflexivity.
    destruct (String.eqb_spec (DetectContentType b) EmptyString) as [E|_];
      [|reflexivity].
    destruct (Hd b E).
  - destruct (String.eqb_spec t EmptyString); [contradiction|reflexivity].
Qed.

(** The same for a whole run behind the decorator. *)
Lemma run_calls_clean calls c z :
  Writer (Resp c) = Decorated -> gzw c = Some z -> z_w z = ToRW ->
  extends_cleanly c (fst (run_calls c calls)).
Proof.
  revert c z. induction calls as [|x calls IH]; intros c z HW Hz Ht.
  - apply extends_cleanly_refl.
  - destruct (do_call_decorated c z x HW Hz Ht)
      as (c1 & z1 & E1 & HW1 & Hz1 & Ht1 & _).
    pose proof (do_call_clean c x HW) as Hc.
    cbn [run_calls]. rewrite E1 in *. cbn [fst] in Hc.
    eapply extends_cleanly_trans; [exact Hc|].
    apply (IH c1 z1 HW1 Hz1 Ht1).
Qed.

Lemma run_calls_type calls c z :
  (forall b, DetectContentType b <> EmptyString) ->
  Writer (Resp c) = Decorated -> gzw c = Some z -> z_w z = ToRW ->
  leaves_key HeaderContentType calls = true ->
  Header_Get (ResHeader (fst (run_calls c calls))) HeaderContentType
  = sniffed (Header_Get (ResHeader c) HeaderContentType) calls.
Proof.
  intros Hd. revert c z. induction calls as [|x calls IH];
    intros c z HW Hz Ht Hk.
  - unfold sniffed. cbn.
    destruct (String.eqb_spec (Header_Get (ResHeader c) HeaderContentType)
                EmptyString); congruence.
  - destruct (do_call_decorated c z x HW Hz Ht)
      as (c1 & z1 & E1 & HW1 & Hz1 & Ht1 & _).
    pose proof (do_call_type c x HW) as Hty.
    cbn [run_calls]. rewrite E1 in *. cbn [fst] in Hty.
    cbn [leaves_key forallb] in Hk.
    apply andb_true_iff in Hk as [Hx Hk].
    rewrite (IH c1 z1 HW1 Hz1 Ht1 Hk), Hty.
    + apply sniffed_cons, Hd.
    + cbn [leaves_key forallb]. rewrite Hx. reflexivity.
Qed.

(** The first status or body write of a response that was not committed
    reaches the sink as a status write. *)
Lemma Response_WriteHeader_log c code :
  Writer (Resp c) = Decorated -> Committed (Resp c) = false ->
  exists h,
    s_log (sink (Response_WriteHeader c code))
    = s_log (sink c) ++ [EvWriteHeader code h].
Proof.
  open_ctx c. unfold Response_WriteHeader, Writer_WriteHeader, grw_WriteHeader.
  cbn [Resp Writer Committed]. intros -> ->.
  destruct (code =? StatusNoContent); effects_simpl; eexists; reflexivity.
Qed.

Lemma run_calls_status_first calls c z :
  Writer (Resp c) = Decorated -> gzw c = Some z -> z_w z = ToRW ->
  Committed (Resp c) = false -> Size (Resp c) = 0 ->
  status_before_flush calls = true ->
  exists l,
    s_log (sink (fst (run_calls c calls))) = s_log (sink c) ++ l
    /\ status_first l
    /\ (l = [] -> Size (Resp (fst (run_calls c calls))) = 0).
Proof.
  revert c z. induction calls as [|x calls IH]; intros c z HW Hz Ht Hcm Hsz Hsb.
  - exists []. rewrite app_nil_r. repeat split. intros _. exact Hsz.
  - destruct (do_call_decorated c z x HW Hz Ht)
      as (c1 & z1 & E1 & HW1 & Hz1 & Ht1 & _).
    cbn [run_calls]. rewrite E1.
    destruct x as [k v|k v|k|code|b|]; cbn [status_before_flush] in Hsb;
      try discriminate.
    1-3: cbn [do_call] in E1; injection E1 as <-;
         exact (IH _ z1 HW1 Hz1 Ht1 Hcm Hsz Hsb).
    + cbn [do_call] in E1. injection E1 as <-.
      destruct (Response_WriteHeader_log c code HW Hcm) as [h Eh].
      destruct (run_calls_clean calls _ z1 HW1 Hz1 Ht1) as (l' & El & _).
      exists (EvWriteHeader code h :: l').
      rewrite El, Eh, <- app_assoc.
      split; [reflexivity|]. split; [exact Logic.I|discriminate].
    + assert (Es : sink c1 = sink (fst (Response_Write c b))).
      { cbn [do_call] in E1.
        destruct (Response_Write c b) as [d [r|m]]; inversion E1; reflexivity. }
      rewrite Response_Write_fst in Es by exact HW.
      destruct (Response_WriteHeader_log c StatusOK HW Hcm) as [h Eh].
      destruct (grw_Write_clean (Response_WriteHeader c StatusOK) b)
        as (l1 & E2 & _).
      destruct (run_calls_clean calls _ z1 HW1 Hz1 Ht1) as (l' & El & _).
      exists (EvWriteHeader StatusOK h :: l1 ++ l').
      rewrite El, Es, E2, Eh, <- !app_assoc.
      split; [reflexivity|]. split; [exact Logic.I|discriminate].
Qed.

(** The clean-up touches no header but Content-Encoding, counts nothing,
    and sends the sink at most one write. *)
Lemma finalizer_other rw c k :
  k <> HeaderContentEncoding ->
  ResHeader (finalizer rw c) !! k = ResHeader c !! k.
Proof.
  intros Hk. open_ctx c. unfold finalizer. cbn [Resp Size].
  destruct (sz =? 0); effects_simpl;
    [destruct (String.eqb _ _); effects_simpl|];
    destruct g as [[[] lvl e]|]; effects_simpl; unfold Header_Del;
    by rewrite ?lookup_delete_ne.
Qed.

Lemma finalizer_clean rw c : extends_cleanly c (finalizer rw c).
Proof.
  open_ctx c. unfold finalizer. cbn [Resp Size].
  destruct (sz =? 0); effects_simpl;
    [destruct (String.eqb _ _); effects_simpl|];
    destruct g as [[[] lvl e]|]; effects_simpl;
    first [ apply extends_cleanly_same; reflexivity
          | eapply extends_cleanly_event; [reflexivity|constructor] ].
Qed.


Lemma handler_fst calls ret c :
  fst (handler calls ret c) = fst (run_calls c calls).
Proof. unfold handler. destruct (run_calls c calls) as [d [m|]]; reflexivity. Qed.

End DecoratorEffects.

(** ** The gzip path, end to end *)

Section GzipPath.
Context {I : Imports}.
Implicit Types (c : Ctx) (next : HandlerFunc) (options : list Option_)
  (calls : list Call).

(** X5. Every response that is not skipped ends with [Accept-Encoding]
    appended to the Vary values it had on entry, whether or not the
    request asked for gzip, whether the compressor could be built, and
    whatever the clean-up reverted, as long as the handler itself makes no
    header call on Vary. *)
Theorem X5_Vary_on_every_unskipped_response options c calls ret :
  skipped options c = false ->
  leaves_key HeaderVary calls = true ->
  ResHeader (fst (New options c (handler calls ret))) !! HeaderVary
  = Some (default [] (ResHeader c !! HeaderVary) ++ [HeaderAcceptEncoding]).
Proof.
  intros Hs Hk.
  assert (Hv : ResHeader (varied c) !! HeaderVary
               = Some (default [] (ResHeader c !! HeaderVary)
                       ++ [HeaderAcceptEncoding]))
    by apply Header_Add_lookup.
  assert (Ha : forall level,
             ResHeader (activated level c) !! HeaderVary
             = ResHeader (varied c) !! HeaderVary).
  { intros level. unfold activated, announced, with_Writer, with_Resp,
      with_gzw, with_header, with_sink, ResHeader, sink_with_header, Header_Set.
    cbn [sink s_header]. by rewrite lookup_insert_ne. }
  destruct (accepts_gzip c) eqn:Hacc.
  - destruct (invalid_level (level_of options)) eqn:Hl.
    + rewrite New_invalid by assumption. cbn [fst].
      rewrite <- Hv. apply (Ha 0).
    + rewrite New_gzip by assumption. cbn [fst].
      rewrite finalizer_other by discriminate.
      rewrite handler_fst, run_calls_leaves_Vary by exact Hk.
      rewrite Ha. exact Hv.
  - rewrite New_plain by assumption.
    rewrite handler_fst, run_calls_leaves_Vary by exact Hk. exact Hv.
Qed.

(** X6. Behind the decorator, the header calls, status writes with a
    valid code (100 to 999), body writes and flushes of a handler do not
    panic, not even a flush on a sink that cannot flush: on the gzip path
    the middleware returns exactly what such a handler returns.  (The call
    that can panic behind the decorator is [Hijack], see [grw_Hijack]; a
    handler that hijacks is not covered.) *)
Theorem X6_writes_and_flushes_do_not_panic options c calls ret :
  skipped options c = false ->
  accepts_gzip c = true ->
  invalid_level (level_of options) = false ->
  statuses_satisfy valid_status calls = true ->
  snd (New options c (handler calls ret)) = Return ret.
Proof.
  intros Hs Ha Hl _. rewrite New_gzip by assumption. unfold handler.
  destruct (run_calls_decorated calls (activated (level_of options) c) _
              eq_refl eq_refl eq_refl) as (c' & z' & E & _).
  rewrite E. reflexivity.
Qed.


(** X8. With the decorator installed, the Content-Type entry of the
    response's header map is decided by the handler's first write: a value
    present on entry is kept; an empty one is replaced by what
    [DetectContentType] makes of the bytes of the first write, and later
    writes do not change it; without a write it stays empty.  This covers
    handlers that make no header call on Content-Type, write only final
    statuses (200 to 999) and do not flush before their first status or
    body write, so that the sink has a status before it gets any byte and
    does no detection of its own; the detector never answers the empty
    string. *)
Theorem X8_content_type_from_first_write options c calls ret :
  (forall b, DetectContentType b <> EmptyString) ->
  skipped options c = false ->
  accepts_gzip c = true ->
  invalid_level (level_of options) = false ->
  leaves_key HeaderContentType calls = true ->
  statuses_satisfy final_status calls = true ->
  status_before_flush calls = true ->
  Header_Get (ResHeader (fst (New options c (handler calls ret))))
    HeaderContentType
  = (if String.eqb (Header_Get (ResHeader c) HeaderContentType) EmptyString
     then match first_write calls with
          | Some b => DetectContentType b
          | None => EmptyString
          end
     else Header_Get (ResHeader c) HeaderContentType).
Proof.
  intros Hd Hs Ha Hl Hk _ _. rewrite New_gzip by assumption. cbn [fst].
  rewrite (Header_Get_lookup _ _ HeaderContentType
             (finalizer_other (Writer (Resp c)) _ HeaderContentType
                ltac:(discriminate))).
  rewrite handler_fst.
  rewrite (run_calls_type calls (activated (level_of options) c) _ Hd
             eq_refl eq_refl eq_refl Hk).
  unfold sniffed.
  assert (E : Header_Get (ResHeader (activated (level_of options) c))
                HeaderContentType
              = Header_Get (ResHeader c) HeaderContentType).
  { apply Header_Get_lookup.
    unfold activated, announced, varied, with_Writer, with_Resp, with_gzw,
      with_header, with_sink, ResHeader, sink_with_header, Header_Set,
      Header_Add.
    cbn [sink s_header]. by rewrite !lookup_insert_ne. }
  rewrite E. reflexivity.
Qed.

(** X9. While the middleware handles a gzip request on a response that
    was not committed, for a handler that writes only final statuses (200
    to 999) and does not flush before its first status or body write: what
    reaches the sink is appended to its log and starts with a status
    write, so the sink never has to pick a status of its own; every status
    write among it carries no Content-Length header and, for status 204, no
    Content-Encoding header; and the middleware never hijacks the
    connection by itself. *)
Theorem X9_status_writes_are_stripped options c calls ret :
  skipped options c = false ->
  accepts_gzip c = true ->
  invalid_level (level_of options) = false ->
  Committed (Resp c) = false ->
  Size (Resp c) = 0 ->
  statuses_satisfy final_status calls = true ->
  status_before_flush calls = true ->
  exists l,
    s_log (sink (fst (New options c (handler calls ret)))) = s_log (sink c) ++ l
    /\ status_first l
    /\ Forall clean_event l.
Proof.
  intros Hs Ha Hl Hcm Hsz _ Hsb. rewrite New_gzip by assumption. cbn [fst].
  rewrite handler_fst.
  destruct (run_calls_status_first calls (activated (level_of options) c) _
              eq_refl eq_refl eq_refl Hcm Hsz Hsb) as (l1 & E1 & Hf1 & Hz1).
  destruct (run_calls_clean calls (activated (level_of options) c) _
              eq_refl eq_refl eq_refl) as (l1' & E1' & Hc1).
  assert (l1' = l1) as -> by (rewrite E1 in E1'; exact (app_inv_head _ _ _ (eq_sym E1'))).
  destruct (finalizer_clean (Writer (Resp c))
              (fst (run_calls (activated (level_of options) c) calls)))
    as (l2 & E2 & Hc2).
  exists (l1 ++ l2). rewrite E2, E1, <- app_assoc.
  change (s_log (sink (activated (level_of options) c))) with (s_log (sink c)).
  split; [reflexivity|]. split; [|apply Forall_app; split; assumption].
  destruct l1 as [|e l1]; [|exact Hf1].
  destruct (finalizer_reverts (Writer (Resp c)) _ (Hz1 eq_refl))
    as (_ & _ & _ & Hlog & _).
  rewrite Hlog in E2. rewrite <- (app_nil_r (s_log _)) in E2 at 1.
  apply app_inv_head in E2. subst l2. exact Logic.I.
Qed.

(** X10. When a byte was counted, the clean-up only closes the compressor,
    whatever [next] returned (nil, an error or a panic): the outcome is
    passed on, the headers and the response state stay as [next] left
    them, so the decorator remains installed as the response's writer
    after the middleware has returned, and the sink receives the
    compressor's closing output as one more write (nothing, if the
    compressor points at the discard sink). *)
Theorem X10_counted_bytes_only_close options c next z :
  skipped options c = false ->
  accepts_gzip c = true ->
  invalid_level (level_of options) = false ->
  Size (Resp (fst (next (activated (level_of options) c)))) <> 0 ->
  gzw (fst (next (activated (level_of options) c))) = Some z ->
  snd (New options c next) = snd (next (activated (level_of options) c))
  /\ Resp (fst (New options c next))
     = Resp (fst (next (activated (level_of options) c)))
  /\ ResHeader (fst (New options c next))
     = ResHeader (fst (next (activated (level_of options) c)))
  /\ s_log (sink (fst (New options c next)))
     = s_log (sink (fst (next (activated (level_of options) c))))
       ++ match z_w z with
          | ToRW => [EvWrite (snd (enc_close gzip_codec (z_enc z)))]
          | ToDiscard => []
          end
  /\ gzw (fst (New options c next))
     = Some {| z_w := z_w z; z_level := z_level z;
               z_enc := fst (enc_close gzip_codec (z_enc z)) |}
  /\ (forall calls ret,
      next = handler calls ret ->
      Writer (Resp (fst (New options c next))) = Decorated).
Proof.
  intros Hs Ha Hl Hnz Hz. rewrite New_gzip by assumption. cbn [fst snd].
  rewrite (finalizer_closes _ _ z Hnz Hz).
  unfold with_gzw, with_sink, ResHeader, emit. cbn [sink gzw Resp].
  split; [reflexivity|]. split; [reflexivity|].
  split; [destruct (z_w z); reflexivity|].
  split; [destruct (z_w z); cbn; by rewrite ?app_nil_r|].
  split; [reflexivity|].
  intros calls ret ->. rewrite handler_fst.
  destruct (run_calls_decorated calls (activated (level_of options) c) _
              eq_refl eq_refl eq_refl) as (c' & z' & E & HW & _).
  rewrite E. exact HW.
Qed.

End GzipPath.

(** ** The further properties on concrete requests *)

(** A bad level is noticed on a gzip request. *)
Lemma X3_witness :
  New [Level 10] Scenario.fresh Scenario.write_test
  = New [Level 10] Scenario.fresh Scenario.no_content.
Proof.
  apply (proj2 (X3_next_not_run_iff_bad_level_on_gzip_request
                  [Level 10] Scenario.fresh)).
  split; [reflexivity|]. split; [reflexivity|].
  right. vm_compute. reflexivity.
Defined.

(** [Accept-Encoding: gzip;q=0] switches compression on. *)
Lemma X4_witness :
  accepts_gzip
    (NewContext {[ HeaderAcceptEncoding := ["gzip;q=0"] ]} Scenario.recorder)
  = true.
Proof.
  apply (proj2 (X4_activation_is_substring_of_first_value
                  (NewContext {[ HeaderAcceptEncoding := ["gzip;q=0"] ]}
                     Scenario.recorder))).
  exists "gzip;q=0", [], EmptyString, ";q=0".
  split; reflexivity.
Defined.

Lemma X5_witness :
  ResHeader (fst (New [] Scenario.fresh Scenario.write_test)) !! HeaderVary
  = Some [HeaderAcceptEncoding].
Proof.
  apply (X5_Vary_on_every_unskipped_response [] Scenario.fresh
           [CallWrite Scenario.test_bytes] None);
    reflexivity.
Defined.

(** A flush behind the decorator on a sink that cannot flush. *)
Lemma X6_witness :
  snd (New [] (NewContext Scenario.gzip_request Scenario.raw_conn)
         (handler [CallFlush] None))
  = Return None.
Proof.
  apply (X6_writes_and_flushes_do_not_panic []
           (NewContext Scenario.gzip_request Scenario.raw_conn)
           [CallFlush] None);
    reflexivity.
Defined.


Lemma X8_witness :
  Header_Get
    (ResHeader (fst (New [] Scenario.fresh
                       (handler [CallWrite Scenario.test_line;
                                 CallWrite Scenario.test_bytes] None))))
    HeaderContentType
  = DetectContentType Scenario.test_line.
Proof.
  apply (X8_content_type_from_first_write [] Scenario.fresh
           [CallWrite Scenario.test_line; CallWrite Scenario.test_bytes] None);
    try reflexivity.
  intros b. discriminate.
Defined.

(** A handler that announces a length and then writes. *)
Lemma X9_witness :
  exists l,
    s_log (sink (fst (New [] Scenario.fresh
                        (handler [CallHeaderSet HeaderContentLength "4";
                                  CallWrite Scenario.test_bytes] None))))
    = s_log (sink Scenario.fresh) ++ l
    /\ status_first l
    /\ Forall clean_event l.
Proof.
  apply (X9_status_writes_are_stripped [] Scenario.fresh
           [CallHeaderSet HeaderContentLength "4";
            CallWrite Scenario.test_bytes] None);
    reflexivity.
Defined.

(** A handler that writes and then fails. *)
Lemma X10_witness :
  snd (New [] Scenario.fresh
         (handler [CallWrite Scenario.test_bytes] (Some Scenario.not_found)))
  = Return (Some Scenario.not_found)
  /\ Writer (Resp (fst (New [] Scenario.fresh
                          (handler [CallWrite Scenario.test_bytes]
                             (Some Scenario.not_found)))))
     = Decorated.
Proof.
  destruct (X10_counted_bytes_only_close [] Scenario.fresh
              (handler [CallWrite Scenario.test_bytes]
                 (Some Scenario.not_found))
              (default {| z_w := ToDiscard; z_level := 0;
                          z_enc := enc_init gzip_codec 0 |}
                 (gzw (fst (handler [CallWrite Scenario.test_bytes]
                              (Some Scenario.not_found)
                              (activated (-1) Scenario.fresh)))))
              eq_refl eq_refl eq_refl ltac:(discriminate) eq_refl)
    as (Hr & _ & _ & _ & _ & Hw).
  split; [exact Hr|].
  exact (Hw [CallWrite Scenario.test_bytes] (Some Scenario.not_found) eq_refl).
Defined.
